(** * MCP server selection: the selector component, its dropdown and the
      server-side listing

    A shallow embedding of

    - [MCPSelect] (the selector component: [storageCondition],
      [setSelectedValues], the two reconciliation effects,
      [renderSelectedValues] and the final [return]),
    - [MultiSelect] (client/src/components/ui/MultiSelect.tsx),
    - [getMCPs] (the model behind [GET /] of api/server/routes/mcp.js)
      and the route handler itself.

    JavaScript values are modelled as follows.  A [string[]] is a
    [list string]; a nullable value is an [option]; a [Set<string>] is the
    list of its elements in insertion order (only [has] and [size] are
    read); a thrown exception or a rejected promise is the [Throw]
    constructor of [result].  Characters are bytes, so [length] counts
    bytes where JavaScript counts UTF-16 code units; the two agree on ASCII
    text.

    React state is made explicit: the component instance is a record
    [State] holding the [useRef] cell, the value returned by the storage
    hook, the Recoil atom family and [localStorage].  Each effect body is a
    function on [State]; it runs against the state committed before it. *)

From Stdlib Require Import Ascii String List Bool Arith Lia.
From stdpp Require Import base option list strings pretty gmap.
Import ListNotations.

(** ** JavaScript preliminaries *)

Module Js.

Inductive JsError : Type :=
| TypeError (message : string)
| Error (message : string).

Definition error_message (e : JsError) : string :=
  match e with TypeError m => m | Error m => m end.

(** Completion of a statement, or settlement of an awaited promise. *)
Inductive result (A : Type) : Type :=
| Ok (a : A)
| Throw (e : JsError).
Arguments Ok {A} a.
Arguments Throw {A} e.

Definition bind {A B} (r : result A) (k : A -> result B) : result B :=
  match r with
  | Ok a => k a
  | Throw e => Throw e
  end.

(** [try { body } catch (e) { handler e }] *)
Definition try_catch {A} (body : result A) (handler : JsError -> result A)
  : result A :=
  match body with
  | Ok a => Ok a
  | Throw e => handler e
  end.

(** The values a selection argument can take at run time:
    [string[] | null | undefined], and a string standing for any other
    non-array value. *)
Inductive jsval : Type :=
| JUndefined
| JNull
| JString (s : string)
| JArray (l : list string).

(** [!v] is [negb (truthy v)]. *)
Definition truthy (v : jsval) : bool :=
  match v with
  | JUndefined | JNull => false
  | JString s => negb (String.eqb s EmptyString)
  | JArray _ => true
  end.

Definition isArray (v : jsval) : bool :=
  match v with JArray _ => true | _ => false end.

(** [arr.includes(x)] and [set.has(x)] on strings. *)
Definition includes (arr : list string) (x : string) : bool :=
  existsb (String.eqb x) arr.

(** [a || b] on strings that may be [undefined]. *)
Definition or_else (a : option string) (b : string) : string :=
  match a with
  | Some s => if String.eqb s EmptyString then b else s
  | None => b
  end.

(** [String.prototype.trim], on the ASCII white space characters. *)
Definition isWhiteSpace (c : ascii) : bool :=
  let n := nat_of_ascii c in
  (Nat.leb 9 n && Nat.leb n 13) || Nat.eqb n 32.

Fixpoint trimStart (s : string) : string :=
  match s with
  | EmptyString => EmptyString
  | String c s' => if isWhiteSpace c then trimStart s' else s
  end.

Fixpoint trimEnd (s : string) : string :=
  match s with
  | EmptyString => EmptyString
  | String c s' =>
      match trimEnd s' with
      | EmptyString => if isWhiteSpace c then EmptyString
                       else String c EmptyString
      | t => String c t
      end
  end.

Definition trim (s : string) : string := trimEnd (trimStart s).

(** [JSON.stringify] on an array of strings. *)
Definition hexDigit (n : nat) : ascii :=
  ascii_of_nat (if Nat.ltb n 10 then 48 + n else 87 + n).

Definition backslash : ascii := ascii_of_nat 92.
Definition dquote : ascii := ascii_of_nat 34.

Definition escapeChar (c : ascii) : string :=
  let n := nat_of_ascii c in
  if Nat.eqb n 34 then String backslash (String dquote EmptyString)
  else if Nat.eqb n 92 then String backslash (String backslash EmptyString)
  else if Nat.eqb n 8 then String backslash "b"
  else if Nat.eqb n 12 then String backslash "f"
  else if Nat.eqb n 10 then String backslash "n"
  else if Nat.eqb n 13 then String backslash "r"
  else if Nat.eqb n 9 then String backslash "t"
  else if Nat.ltb n 32 then
    String backslash
      (String "u" (String "0" (String "0"
         (String (hexDigit (n / 16))
            (String (hexDigit (n mod 16)) EmptyString)))))
  else String c EmptyString.

Fixpoint escape (s : string) : string :=
  match s with
  | EmptyString => EmptyString
  | String c s' => escapeChar c +:+ escape s'
  end.

Definition quote (s : string) : string :=
  String dquote (escape s +:+ String dquote EmptyString).

Definition JSON_stringify (l : list string) : string :=
  "[" +:+ String.concat "," (map quote l) +:+ "]".

End Js.
Export Js.

(** ** Server side: [getMCPs] and the route [GET /] *)

Module Server.

(** The parts of the custom configuration that [getMCPs] reads. *)
Record McpServerConfig : Type := {
  defaultMCPServers : option (list string)
}.

Record CustomConfig : Type := {
  mcpServers : option (list string);
  mcpServerConfig : option McpServerConfig
}.

Record MCPManager : Type := {
  getServerNames : result (list string)
}.

(** The collaborators [getMCPs] calls; each may throw or reject. *)
Record Env : Type := {
  getCustomConfig : result (option CustomConfig);
  getMCPManager : result MCPManager
}.

Record MCPOption : Type := {
  name : string;
  isDefault : bool
}.

(** [customConfig.mcpServerConfig?.defaultMCPServers || []] *)
Definition defaultsOf (c : CustomConfig) : list string :=
  match mcpServerConfig c with
  | Some sc => default [] (defaultMCPServers sc)
  | None => []
  end.

(** The body of the [try] block. *)
Definition getMCPs_body (env : Env) : result (list MCPOption) :=
  bind (getCustomConfig env) (fun customConfig =>
  match customConfig with
  | None => Ok []
  | Some cfg =>
      match mcpServers cfg with
      | None => Ok []
      | Some _ =>
          bind (getMCPManager env) (fun mcpManager =>
          bind (getServerNames mcpManager) (fun mcpServers =>
          let defaultMCPSet := defaultsOf cfg in
          let options :=
            map (fun server =>
                   {| name := server;
                      isDefault := includes defaultMCPSet server |})
                mcpServers in
          Ok options))
      end
  end).

(** [getMCPs]: what the returned promise settles to.  The calls to
    [console.log] and [logger.error] write to the log and return. *)
Definition getMCPs (env : Env) : result (list MCPOption) :=
  try_catch (getMCPs_body env) (fun _error => Ok []).

(** What the handler hands to [res.status(code).send(body)]. *)
Inductive Body : Type :=
| Mcps (l : list MCPOption)
| Failure (message : string) (error : string).

(** [router.get('/')] after authentication: the sequence of
    [res.status(code).send(body)] calls it makes.  [send] is the
    response object's method and may itself throw. *)
Definition route_get (env : Env) (send : nat -> Body -> result unit)
  : list (nat * Body) :=
  let failure (error : JsError) :=
    (500, Failure "Failed to retrieve categories" (error_message error)) in
  match getMCPs env with
  | Ok mcps =>
      match send 200 (Mcps mcps) with
      | Ok _ => [(200, Mcps mcps)]
      | Throw error => [(200, Mcps mcps); failure error]
      end
  | Throw error => [failure error]
  end.

End Server.

(** ** Client side: data shared by the two components *)

Module DataProvider.

(** An entry of the [useGetMCP] response as the server sends it;
    [isDefault] may be missing. *)
Record MCPServerData : Type := {
  data_name : string;
  data_isDefault : option bool
}.

Record MCPServer : Type := {
  name : string;
  isDefault : bool
}.

(** The [select] option of [useGetMCP]; [Boolean(undefined)] is
    [false]. *)
Definition select (data : list MCPServerData) : list MCPServer :=
  map (fun mcpServer =>
         {| name := data_name mcpServer;
            isDefault := default false (data_isDefault mcpServer) |})
      data.

Definition loadingMCPServers : list MCPServer :=
  [ {| name := "time"; isDefault := true |} ].

(** [const { data = loadingMCPServers } = useGetMCP({ select })] *)
Definition useGetMCP (data : option (list MCPServerData))
  : list MCPServer :=
  match data with
  | Some d => select d
  | None => loadingMCPServers
  end.

(** [servers.filter(server => server.isDefault).map(server => server.name)] *)
Definition defaultMCPServers (servers : list MCPServer) : list string :=
  map name (List.filter isDefault servers).

(** The function returned by [useLocalize]: a phrase key and the
    optional interpolated count [{ 0: n }]. *)
Definition Localize : Type := string -> option nat -> string.

End DataProvider.

(** ** The dropdown: MultiSelect.tsx *)

Module MultiSelect.
Import DataProvider.

(** The props the component reads; [S] is the state the setters act
    on.  Styling props and the unused [defaultSelectedValues] are left
    out. *)
Record Props (S : Type) : Type := {
  items : list string;
  label : option string;
  placeholder : option string;
  onSelectedValuesChange : option (list string -> S -> result S);
  renderSelectedValues : option (list string -> option string -> string);
  selectedValues : option (list string);
  setSelectedValues : list string -> S -> result S
}.
Arguments items {S}.
Arguments label {S}.
Arguments placeholder {S}.
Arguments onSelectedValuesChange {S}.
Arguments renderSelectedValues {S}.
Arguments selectedValues {S}.
Arguments setSelectedValues {S}.

(** What is rendered when the component does not return [null]. *)
Record View (S : Type) : Type := {
  value : list string;
  setValue : list string -> S -> result S;
  labelText : option string;
  buttonText : string;
  options : list string
}.
Arguments value {S}.
Arguments setValue {S}.
Arguments labelText {S}.
Arguments buttonText {S}.
Arguments options {S}.

Definition defaultRender
    (values : list string) (placeholder : option string) : string :=
  match values with
  | [] => or_else placeholder "Select..."
  | [v] => v
  | _ => pretty (length values) +:+ " items selected"
  end.

(** [defaultMCPServers.length > 0 ? defaultMCPServers : ['time']] *)
Definition serverNamesForFiltering (mcpServers : list MCPServer)
  : list string :=
  let defaults := defaultMCPServers mcpServers in
  if Nat.ltb 0 (length defaults) then defaults else ["time"].

Definition handleValueChange {S} (props : Props S)
    (values : list string) (s : S) : result S :=
  bind (setSelectedValues props values s) (fun s' =>
  match onSelectedValuesChange props with
  | Some onChange => onChange values s'
  | None => Ok s'
  end).

(** The component: [None] is [return null]. *)
Definition MultiSelect {S} (props : Props S)
    (data : option (list MCPServerData)) : option (View S) :=
  let placeholder := Some (default "Select..." (placeholder props)) in
  let render :=
    default defaultRender (renderSelectedValues props) in
  let selected := default [] (selectedValues props) in
  let mcpServers := useGetMCP data in
  let names := serverNamesForFiltering mcpServers in
  let filteredSelectedValues :=
    List.filter (fun value => negb (includes names value)) selected in
  if Nat.eqb (length filteredSelectedValues) 0 then None
  else
    Some {| value := filteredSelectedValues;
            setValue := handleValueChange props;
            labelText := label props;
            buttonText := render filteredSelectedValues placeholder;
            options := items props |}.

End MultiSelect.

(** ** The selector: MCPSelect *)

Module MCPSelect.
Import DataProvider.

(** Modelled from the spec: [Constants.NEW_CONVO] and
    [LocalStorageKeys.LAST_MCP_] come from the data-provider package,
    which is not among the sources: the sentinel key of a new
    conversation and the namespace prefix of the persisted snapshots. *)
Definition NEW_CONVO : string := "new".
Definition LAST_MCP_ : string := "LAST_MCP_".

Definition storageCondition (value : jsval)
    (rawCurrentValue : option string) : bool :=
  let nonEmptyArray :=
    match value with
    | JArray l => Nat.ltb 0 (length l)
    | _ => false
    end in
  match rawCurrentValue with
  | Some raw =>
      if negb (String.eqb raw EmptyString) then
        let currentValue := trim raw in
        if Nat.ltb 2 (String.length currentValue) then true
        else nonEmptyArray
      else nonEmptyArray
  | None => nonEmptyArray
  end.

(** The value of the atom [ephemeralAgentByConvoId(key)]; an absent
    entry of the family is [null]. *)
Record EphemeralAgent : Type := {
  mcp : option (list string);
  execute_code : option bool
}.

(** The component instance together with the stores it writes.
    [localStorage] keeps, per storage key, the array whose JSON text is
    stored; [saved] lists the [localStorage.setItem] calls, latest
    first. *)
Record State : Type := mkState {
  conversationId : option string;
  hasSetFetched : option string;
  mcpValues : option (list string);
  ephemeralAgentByConvoId : gmap string EphemeralAgent;
  localStorage : gmap string (list string);
  saved : list (string * list string)
}.

(** [conversationId ?? Constants.NEW_CONVO] *)
Definition key (st : State) : string :=
  default NEW_CONVO (conversationId st).

Definition ephemeralAgent (st : State) : option EphemeralAgent :=
  ephemeralAgentByConvoId st !! key st.

(** [ephemeralAgent?.mcp ?? []] *)
Definition mcpState (st : State) : list string :=
  default [] (ephemeralAgent st ≫= mcp).

Definition set_hasSetFetched (r : option string) (st : State) : State :=
  mkState (conversationId st) r (mcpValues st)
          (ephemeralAgentByConvoId st) (localStorage st) (saved st).

Definition set_mcpValues (v : option (list string)) (st : State) : State :=
  mkState (conversationId st) (hasSetFetched st) v
          (ephemeralAgentByConvoId st) (localStorage st) (saved st).

Definition set_conversationId (c : option string) (st : State) : State :=
  mkState c (hasSetFetched st) (mcpValues st)
          (ephemeralAgentByConvoId st) (localStorage st) (saved st).

(** [setEphemeralAgent(updater)] on the atom of the current key. *)
Definition setEphemeralAgent
    (updater : option EphemeralAgent -> EphemeralAgent) (st : State)
  : State :=
  mkState (conversationId st) (hasSetFetched st) (mcpValues st)
          (<[key st := updater (ephemeralAgent st)]>
             (ephemeralAgentByConvoId st))
          (localStorage st) (saved st).

(** [localStorage.getItem(k)]: the stored JSON text, or [null]. *)
Definition getItem (k : string) (st : State) : option string :=
  JSON_stringify <$> (localStorage st !! k).

(** [localStorage.setItem(k, JSON.stringify(value))] *)
Definition setItem (k : string) (value : list string) (st : State)
  : State :=
  mkState (conversationId st) (hasSetFetched st) (mcpValues st)
          (ephemeralAgentByConvoId st)
          (<[k := value]> (localStorage st)) ((k, value) :: saved st).

(** [(prev) => ({ ...prev, mcp: values })] *)
Definition withMcp (values : list string) (prev : option EphemeralAgent)
  : EphemeralAgent :=
  {| mcp := Some values; execute_code := prev ≫= execute_code |}.

Definition setSelectedValues (values : jsval) (st : State)
  : result State :=
  if negb (truthy values) then Ok st
  else
    match values with
    | JArray l => Ok (setEphemeralAgent (withMcp l) st)
    | _ => Ok st
    end.

(** Modelled from the spec: the hook [useLocalStorage]
    (hooks/useLocalStorageAlt) is not among the sources; only its call
    [useLocalStorage(storageKey, mcpState, setSelectedValues,
    storageCondition)] is.  By the spec the persisted snapshot is written
    on every committed change: the setter the hook returns commits
    [value] as the hook's value, saves it under the storage key, and
    hands it to the global setter given at the call.  What the hook does
    with the storage condition it is given is not visible in the sources
    and is not modelled. *)
Definition setMCPValues (value : list string) (st : State)
  : result State :=
  let k := LAST_MCP_ +:+ key st in
  let st1 := set_mcpValues (Some value) st in
  let st2 := setItem k value st1 in
  setSelectedValues (JArray value) st2.

(** Modelled from the spec: the same hook when the storage key changes
    with the conversation: the hook's value is seeded from the persisted
    snapshot if there is one, else from the default value given at the
    call, [mcpState]. *)
Definition conversationChanged (id : option string) (st : State)
  : result State :=
  let st1 := set_conversationId id st in
  let seed :=
    match localStorage st1 !! (LAST_MCP_ +:+ key st1) with
    | Some stored => stored
    | None => mcpState st1
    end in
  Ok (set_mcpValues (Some seed) st1).

(** The effect that keeps the default servers selected. *)
Definition defaultsEffect (defaultMCPServers : list string) (st : State)
  : result State :=
  match mcpValues st with
  | None => setMCPValues defaultMCPServers st
  | Some values =>
      let missingDefaults :=
        List.filter (fun server => negb (includes values server))
                    defaultMCPServers in
      if Nat.ltb 0 (length missingDefaults)
      then setMCPValues (values ++ missingDefaults) st
      else Ok st
  end.

(** The effect that prunes the selection against the fetched server
    set.  [mcpValues.filter] on a missing value is a TypeError. *)
Definition pruneEffect (isFetched : bool)
    (mcpServerSet : option (list string)) (st : State) : result State :=
  if decide (hasSetFetched st = Some (key st)) then Ok st
  else if negb isFetched then Ok st
  else
    let st1 := set_hasSetFetched (Some (key st)) st in
    if Nat.ltb 0 (length (default [] mcpServerSet)) then
      match mcpValues st1 with
      | Some values =>
          setMCPValues
            (List.filter (fun mcp => includes (default [] mcpServerSet) mcp)
                         values)
            st1
      | None => Throw (TypeError "mcpValues.filter")
      end
    else setMCPValues [] st1.

(** [renderSelectedValues], a closure over [localize] and over the
    [defaultMCPServers] of the render that created it. *)
Definition renderSelectedValues (localize : Localize)
    (defaultMCPServers : list string)
    (values : list string) (placeholder : option string) : string :=
  let filteredValues :=
    List.filter (fun value => negb (includes defaultMCPServers value))
                values in
  if Nat.eqb (length filteredValues) 0 then
    or_else placeholder (localize "com_ui_select" None +:+ "...")
  else
    match filteredValues with
    | [v] => v
    | _ => localize "com_ui_x_selected" (Some (length filteredValues))
    end.

(** A [useMemo] or [useCallback] cell with one dependency, compared by
    identity (a stamp): the value computed in an earlier render is kept
    until the dependency changes. *)
Definition useMemo {V : Type} (cell : option (nat * V)) (dependency : nat)
    (computed : V) : nat * V :=
  match cell with
  | Some (previous, kept) =>
      if Nat.eqb previous dependency then (previous, kept)
      else (dependency, computed)
  | None => (dependency, computed)
  end.

(** The default list held by [renderSelectedValues] (dependency
    [localize]) after a series of renders, each given by the stamp of
    [localize] and the [defaultMCPServers] of that render. *)
Fixpoint callbackDefaultsAfter (cell : option (nat * list string))
    (renders : list (nat * list string)) : option (nat * list string) :=
  match renders with
  | [] => cell
  | (localizeStamp, defaultMCPServers) :: later =>
      callbackDefaultsAfter
        (Some (useMemo cell localizeStamp defaultMCPServers)) later
  end.

(** The memoised [mcpServers]; [defaultMCPServers] is that of the render
    in which the memo was last computed. *)
Definition mcpServers (mcpServerSet : option (list string))
    (defaultMCPServers : list string) : option (list string) :=
  match mcpServerSet with
  | None => None
  | Some servers =>
      if Nat.eqb (length servers) 0 then None
      else Some (List.filter
                   (fun server => negb (includes defaultMCPServers server))
                   servers)
  end.

(** The component's [return]: [None] is [return null], otherwise the
    props handed to [MultiSelect].  [memoDefaults] and [callbackDefaults]
    are the default lists held by the [mcpServers] memo and by the
    [renderSelectedValues] callback. *)
Definition MCPSelect (localize : Localize)
    (mcpServerSet : option (list string))
    (memoDefaults callbackDefaults : list string) (st : State)
  : option (MultiSelect.Props State) :=
  match mcpServerSet with
  | None => None
  | Some servers =>
      if Nat.eqb (length servers) 0 then None
      else
        Some {| MultiSelect.items :=
                  default [] (mcpServers mcpServerSet memoDefaults);
                MultiSelect.label := None;
                MultiSelect.placeholder :=
                  Some (localize "com_ui_mcp_servers" None);
                MultiSelect.onSelectedValuesChange := None;
                MultiSelect.renderSelectedValues :=
                  Some (renderSelectedValues localize callbackDefaults);
                MultiSelect.selectedValues :=
                  Some (default [] (mcpValues st));
                MultiSelect.setSelectedValues := setMCPValues |}
  end.

(** *** The operations of the selection store *)

(** The selection of a context key: the hook's value for the mounted
    key, the atom's [mcp] for any other; empty when there is none. *)
Definition getSelected (k : string) (st : State) : list string :=
  if decide (k = key st) then default [] (mcpValues st)
  else default [] (ephemeralAgentByConvoId st !! k ≫= mcp).


(** What the store reacts to: a choice made in the dropdown, a render
    with the given default list, a render with the given state of the
    availability query, and a change of the conversation shown. *)
Inductive event : Type :=
| SetSelected (values : list string)
| DefaultsChanged (defaultMCPServers : list string)
| AvailabilityResolved (isFetched : bool)
                       (mcpServerSet : option (list string))
| ConversationChanged (conversationId : option string).

Definition step (e : event) (st : State) : result State :=
  match e with
  | SetSelected values => setMCPValues values st
  | DefaultsChanged defaults => defaultsEffect defaults st
  | AvailabilityResolved isFetched servers =>
      pruneEffect isFetched servers st
  | ConversationChanged id => conversationChanged id st
  end.

Fixpoint run (es : list event) (st : State) : result State :=
  match es with
  | [] => Ok st
  | e :: es' => bind (step e st) (run es')
  end.

Definition isSwitch (e : event) : bool :=
  match e with ConversationChanged _ => true | _ => false end.

(** A selection argument is a proper set of strings when it is an array
    without repeated members. *)
Definition properSet (v : jsval) : Prop :=
  match v with
  | JArray l => NoDup l
  | _ => False
  end.

(** Modelled from the spec: the translation table behind [useLocalize]
    is not among the sources; the English phrases, with the count
    rendered as [N selected]. *)
Definition localize_en : Localize :=
  fun phraseKey count =>
    if String.eqb phraseKey "com_ui_select" then "Select"
    else if String.eqb phraseKey "com_ui_x_selected" then
      match count with
      | Some n => pretty n +:+ " selected"
      | None => "{{0}} selected"
      end
    else if String.eqb phraseKey "com_ui_mcp_servers" then "MCP Servers"
    else phraseKey.

Definition emptyState (id : option string) : State :=
  mkState id None (Some []) ∅ ∅ [].

(** Modelled from the spec: the hook [useLocalize] is not among the
    sources.  The spec has the label follow the default set that is
    current when the label is computed; with the dependency list
    [[localize]] of the callback this is so when [useLocalize] returns a
    new function in every render, and that is how it is modelled: the
    stamp of the function returned in render [n] is [n]. *)
Definition useLocalize (render : nat) : nat := render.

(** The renders of the component from render [n] on, given the
    [defaultMCPServers] of each, oldest first. *)
Fixpoint rendersFrom (n : nat) (history : list (list string))
  : list (nat * list string) :=
  match history with
  | [] => []
  | defaultMCPServers :: later =>
      (useLocalize n, defaultMCPServers) :: rendersFrom (S n) later
  end.

(** The default list held by [renderSelectedValues] after the renders of
    [history]; the last member of [history] is the current default
    list. *)
Definition callbackDefaults (history : list (list string)) : list string :=
  match callbackDefaultsAfter None (rendersFrom 0 history) with
  | Some (_, kept) => kept
  | None => []
  end.






End MCPSelect.

(** ** The available tools: the [select] of [useAvailableToolsQuery] *)

Module AvailableTools.

(** [s.startsWith(p)] *)
Fixpoint startsWith (s p : string) {struct p} : bool :=
  match p with
  | EmptyString => true
  | String c p' =>
      match s with
      | EmptyString => false
      | String d s' => Ascii.eqb c d && startsWith s' p'
      end
  end.

(** [s.includes(sub)] on strings. *)
Fixpoint stringIncludes (s sub : string) : bool :=
  if startsWith s sub then true
  else
    match s with
    | EmptyString => false
    | String _ s' => stringIncludes s' sub
    end.

(** [s.split(sep)] for a separator that is not empty, read from left to
    right: [current] is the part being collected and [skip] counts the
    characters of a separator just found that are still to be passed. *)
Fixpoint splitFrom (sep : string) (skip : nat) (current s : string)
  : list string :=
  match s with
  | EmptyString => [current]
  | String c s' =>
      match skip with
      | S skip' => splitFrom sep skip' current s'
      | O =>
          if startsWith s sep
          then current :: splitFrom sep (String.length sep - 1) EmptyString s'
          else splitFrom sep 0 (current +:+ String c EmptyString) s'
      end
  end.

Definition split (s sep : string) : list string :=
  splitFrom sep 0 EmptyString s.

(** [set.add(x)] on a set kept in insertion order. *)
Definition setAdd (set : list string) (x : string) : list string :=
  if includes set x then set else set ++ [x].

(** A tool of the plugin list, as far as [select] reads it; a missing
    [chatMenu] is [None]. *)
Record TPlugin : Type := {
  pluginKey : string;
  chatMenu : option bool
}.

Section Select.

(** [Constants.mcp_delimiter], defined in the data-provider package. *)
Variable mcp_delimiter : string.

(** [parts[parts.length - 1]] of [pluginKey.split(mcp_delimiter)] *)
Definition serverNameOf (tool : TPlugin) : string :=
  let parts := split (pluginKey tool) mcp_delimiter in
  List.last parts EmptyString.

(** [isMCP && tool.chatMenu !== false] *)
Definition isListedMCP (tool : TPlugin) : bool :=
  let isMCP := stringIncludes (pluginKey tool) mcp_delimiter in
  isMCP && negb (bool_decide (chatMenu tool = Some false)).

(** The body of [data.forEach]. *)
Definition visit (serverNames : list string) (tool : TPlugin)
  : list string :=
  if isListedMCP tool then setAdd serverNames (serverNameOf tool)
  else serverNames.

(** [select]: the set of server names, in insertion order. *)
Definition select (data : list TPlugin) : list string :=
  fold_left visit data [].

End Select.

End AvailableTools.

(** ** The Polygon.io tool: PolygonIO.js *)

Module PolygonIO.

(** [String.prototype.toUpperCase] on the ASCII letters. *)
Definition toUpperChar (c : ascii) : ascii :=
  let n := nat_of_ascii c in
  if Nat.leb 97 n && Nat.leb n 122 then ascii_of_nat (n - 32) else c.

Fixpoint toUpperCase (s : string) : string :=
  match s with
  | EmptyString => EmptyString
  | String c s' => String (toUpperChar c) (toUpperCase s')
  end.

(** The number of occurrences of a character. *)
Fixpoint countChar (c : ascii) (s : string) : nat :=
  match s with
  | EmptyString => 0
  | String d s' => (if Ascii.eqb c d then 1 else 0) + countChar c s'
  end.

(** A text between double quotes. *)
Definition quoted (s : string) : string :=
  String dquote (s +:+ String dquote EmptyString).

(** The body of a response once parsed: [null], or a value of which the
    handler reads [status], [error] and [detail] (a missing or falsy field
    is [None]) and which [JSON.stringify] renders as [json_text] and, with
    an indentation of two, as [json_pretty]. *)
Record JsonValue : Type := {
  json_status : option string;
  json_error : option string;
  json_detail : option string;
  json_text : string;
  json_pretty : string
}.

Inductive Json : Type :=
| JsonNull
| JsonOf (v : JsonValue).

Record Response : Type := {
  ok : bool;
  status : nat;
  json : result Json
}.

(** The tool once constructed; a missing key is [None]. *)
Record PolygonTool : Type := {
  envVar : string;
  override : bool;
  apiKey : option string;
  baseUrl : string
}.

(** The [fields] given to the constructor, as far as it reads them. *)
Record Fields : Type := {
  fields_override : option bool;
  fields_apiKey : option string
}.

(** [getApiKey]; [env] is the value of the environment variable, and
    [!key] holds for a missing and for an empty value. *)
Definition getApiKey (envVar : string) (override : bool)
    (env : option string) : result (option string) :=
  let key := env in
  if String.eqb (default EmptyString key) EmptyString && negb override
  then Throw (Error ("Missing " +:+ envVar +:+ " environment variable."))
  else Ok key.

(** [new PolygonIO(fields)] *)
Definition construct (fields : Fields) (env : option string)
  : result PolygonTool :=
  let envVar := "POLYGON_API_KEY" in
  let override := default false (fields_override fields) in
  bind (match fields_apiKey fields with
        | Some key => Ok (Some key)
        | None => getApiKey envVar override env
        end)
       (fun apiKey =>
          Ok {| envVar := envVar; override := override; apiKey := apiKey;
                baseUrl := "https://api.polygon.io" |}).

Section Call.

(** JavaScript numbers and their rendering in a template literal. *)
Variable number : Type.
Variable numberToString : number -> string.

(** The JSON text of the help object. *)
Variable helpText : string.

(** [fetch(url)]: the response, or a rejection. *)
Variable fetch : string -> result Response.

(** A property of [rawArgs]: missing, a string or a number. *)
Inductive arg : Type :=
| Missing
| Str (s : string)
| Num (n : number).

Record RawArgs : Type := {
  action : arg;
  symbol : arg;
  limit : arg;
  sort : arg
}.

(** The rendering of [${value}]. *)
Definition render (a : arg) : string :=
  match a with
  | Missing => "undefined"
  | Str s => s
  | Num n => numberToString n
  end.

(** [!value || typeof value !== 'string'] is false. *)
Definition nonEmptyString (a : arg) : bool :=
  match a with
  | Str s => negb (String.eqb s EmptyString)
  | _ => false
  end.

Definition isNumber (a : arg) : bool :=
  match a with Num _ => true | _ => false end.

Definition actionIs (a : arg) (name : string) : bool :=
  match a with Str s => String.eqb s name | _ => false end.

(** [symbol.trim().toUpperCase()] *)
Definition ticker (a : arg) : string := toUpperCase (trim (render a)).

(** The [switch]: the error returned, or the endpoint. *)
Definition endpointFor (args : RawArgs) : string + string :=
  let pagedOk := isNumber (limit args) && nonEmptyString (sort args) in
  if actionIs (action args) "prev_aggregate" then
    if negb (nonEmptyString (symbol args)) then
      inl ("Error: " +:+ quoted "symbol"
             +:+ " (string) is required for prev_aggregate.")
    else inr ("/v2/aggs/ticker/" +:+ ticker (symbol args) +:+ "/prev"
                +:+ "?adjusted=true")
  else if actionIs (action args) "list_tickers" then
    if negb pagedOk then
      inl ("Error: " +:+ quoted "limit" +:+ " (number) and "
             +:+ quoted "sort" +:+ " (string) are required for list_tickers.")
    else inr ("/v3/reference/tickers?market=stocks&active=true&order=asc&limit="
                +:+ render (limit args) +:+ "&sort=" +:+ render (sort args))
  else if actionIs (action args) "ticker_types" then
    inr "/v3/reference/tickers/types?asset_class=stocks&locale=us"
  else if actionIs (action args) "related_companies" then
    if negb (nonEmptyString (symbol args)) then
      inl ("Error: " +:+ quoted "symbol"
             +:+ " (string) is required for related_companies.")
    else inr ("/v1/related-companies/" +:+ ticker (symbol args))
  else if actionIs (action args) "exchanges" then
    inr "/v3/reference/exchanges?asset_class=stocks&locale=us"
  else if actionIs (action args) "marketstatus_upcoming" then
    inr "/v1/marketstatus/upcoming"
  else if actionIs (action args) "marketstatus_now" then
    inr "/v1/marketstatus/now"
  else if actionIs (action args) "conditions" then
    if negb pagedOk then
      inl ("Error: " +:+ quoted "limit" +:+ " (number) and "
             +:+ quoted "sort" +:+ " (string) are required for conditions.")
    else inr ("/v3/reference/conditions?asset_class=stocks&order=asc&limit="
                +:+ render (limit args) +:+ "&sort=" +:+ render (sort args))
  else if actionIs (action args) "short_interest" then
    if negb pagedOk then
      inl ("Error: " +:+ quoted "limit" +:+ " (number) and "
             +:+ quoted "sort"
             +:+ " (string) are required for short_interest.")
    else inr ("/stocks/v1/short-interest?limit=" +:+ render (limit args)
                +:+ "&sort=" +:+ render (sort args))
  else inl ("Error: Unknown action: " +:+ render (action args)).

(** The full URL, with the key as the last query parameter. *)
Definition urlFor (tool : PolygonTool) (endpoint : string) : string :=
  let key := default "undefined" (apiKey tool) in
  (baseUrl tool +:+ endpoint)
    +:+ (if AvailableTools.stringIncludes endpoint "?"
         then "&apiKey=" +:+ key else "?apiKey=" +:+ key).

(** What is returned for a response that has arrived. *)
Definition handleResponse (response : Response) : result string :=
  bind (json response) (fun body =>
  if negb (ok response) then
    match body with
    | JsonNull =>
        Throw (TypeError "Cannot read properties of null (reading 'status')")
    | JsonOf v =>
        if bool_decide (json_status v = Some "NOT_AUTHORIZED") then
          Ok ("Error: You are not authorized to access this endpoint. "
                +:+ "Please upgrade your plan at https://polygon.io/pricing")
        else
          let message :=
            or_else (json_error v)
              (or_else (json_detail v) (json_text v)) in
          Ok ("Error: Polygon.io request failed with status "
                +:+ pretty (status response) +:+ ": " +:+ message)
    end
  else
    Ok (match body with
        | JsonNull => "null"
        | JsonOf v => json_pretty v
        end)).

(** [_call]: the URLs requested, and the string the promise resolves
    to. *)
Definition call (tool : PolygonTool) (rawArgs : RawArgs)
  : list string * string :=
  if actionIs (action rawArgs) "help" then ([], helpText)
  else
    match endpointFor rawArgs with
    | inl message => ([], message)
    | inr endpoint =>
        let url := urlFor tool endpoint in
        ([url],
         match bind (fetch url) handleResponse with
         | Ok text => text
         | Throw err => "Error: " +:+ error_message err
         end)
    end.

End Call.

Arguments Missing {number}.
Arguments Str {number} s.
Arguments Num {number} n.

End PolygonIO.

(** ** From the route to the client *)

Module Transport.

(** The array sent by [res.status(200).send(mcps)] as [useGetMCP]
    receives it: one entry per option, with both fields present. *)
Definition received (mcps : list Server.MCPOption)
  : list DataProvider.MCPServerData :=
  map (fun option =>
         {| DataProvider.data_name := Server.name option;
            DataProvider.data_isDefault := Some (Server.isDefault option) |})
      mcps.

End Transport.

(** * Properties *)

(** ** Arrays and strings *)

Lemma includes_In (arr : list string) (x : string) :
  includes arr x = true <-> In x arr.
Proof.
  unfold includes. rewrite existsb_exists. split.
  - intros (y & Hy & Heq). apply String.eqb_eq in Heq. now subst.
  - intros Hx. exists x. split; [assumption | apply String.eqb_refl].
Qed.

Lemma includes_false (arr : list string) (x : string) :
  includes arr x = false <-> ~ In x arr.
Proof.
  rewrite <- includes_In. destruct (includes arr x); split; congruence.
Qed.

Lemma filter_excluded_In (ds values : list string) (x : string) :
  In x (List.filter (fun v => negb (includes ds v)) values)
  <-> In x values /\ ~ In x ds.
Proof.
  rewrite filter_In, negb_true_iff, includes_false. reflexivity.
Qed.

Lemma filter_all_excluded (ds values : list string) :
  (forall v, In v values -> In v ds) ->
  List.filter (fun v => negb (includes ds v)) values = [].
Proof.
  intros Hall. induction values as [|v values IH]; [reflexivity|].
  simpl. assert (Hv : includes ds v = true).
  { apply includes_In, Hall. now left. }
  rewrite Hv. simpl. apply IH. intros w Hw. apply Hall. now right.
Qed.

Lemma length_zero_nil {A} (l : list A) :
  Nat.eqb (length l) 0 = true <-> l = [].
Proof.
  destruct l; simpl; split; congruence.
Qed.

(** ** The server side *)

Import Server.

Lemma getMCPs_resolves (env : Env) : exists mcps, getMCPs env = Ok mcps.
Proof.
  unfold getMCPs, try_catch.
  destruct (getMCPs_body env) as [mcps|e]; eauto.
Qed.

(** C10. [getMCPs] never rejects: it always resolves to an array, which is
    the empty array when the custom configuration has no [mcpServers]
    entry and when anything inside the [try] block throws; the route
    therefore answers with a 200 first, and reaches its 500 branch only
    when sending that response fails. *)
Theorem getMCPs_never_rejects (env : Env) :
  (exists mcps, getMCPs env = Ok mcps)
  /\ (getCustomConfig env = Ok None -> getMCPs env = Ok [])
  /\ (forall cfg, getCustomConfig env = Ok (Some cfg) ->
        mcpServers cfg = None -> getMCPs env = Ok [])
  /\ (forall e, getMCPs_body env = Throw e -> getMCPs env = Ok [])
  /\ (forall send, exists mcps rest,
        getMCPs env = Ok mcps
        /\ route_get env send = (200, Mcps mcps) :: rest
        /\ (send 200 (Mcps mcps) = Ok tt -> rest = [])).
Proof.
  split; [apply getMCPs_resolves|].
  split; [|split; [|split]].
  - intros Hcfg. unfold getMCPs, getMCPs_body. now rewrite Hcfg.
  - intros cfg Hcfg Hnone. unfold getMCPs, getMCPs_body.
    rewrite Hcfg. simpl. now rewrite Hnone.
  - intros e He. unfold getMCPs. now rewrite He.
  - intros send. destruct (getMCPs_resolves env) as [mcps Hm].
    unfold route_get. rewrite Hm.
    destruct (send 200 (Mcps mcps)) as [u|e] eqn:Hsend.
    + exists mcps, []. auto.
    + exists mcps, [(500, Failure "Failed to retrieve categories"
                            (error_message e))].
      repeat split; congruence.
Qed.

Lemma getMCPs_never_rejects_witness :
  getMCPs {| getCustomConfig := Ok (Some {| mcpServers := Some ["time"];
                                            mcpServerConfig := None |});
             getMCPManager := Throw (Error "MCPManager not initialized") |}
  = Ok [].
Proof.
  apply (proj1 (proj2 (proj2 (proj2 (getMCPs_never_rejects _))))
           (Error "MCPManager not initialized")).
  reflexivity.
Defined.

(** ** The dropdown *)

Import DataProvider.

Lemma serverNamesForFiltering_fallback (servers : list MCPServer) :
  MultiSelect.serverNamesForFiltering servers =
  match defaultMCPServers servers with
  | [] => ["time"]
  | defaults => defaults
  end.
Proof.
  unfold MultiSelect.serverNamesForFiltering.
  destruct (defaultMCPServers servers); reflexivity.
Qed.

(** C8. When every selected value is one of the default servers, or is
    [time] when there is no default server, [MultiSelect] returns [null]
    whatever items it was given: nothing can be selected through it. *)
Theorem MultiSelect_null_when_only_defaults
    {S : Type} (props : MultiSelect.Props S)
    (data : option (list MCPServerData)) :
  (forall v, In v (default [] (MultiSelect.selectedValues props)) ->
             In v (match defaultMCPServers (useGetMCP data) with
                   | [] => ["time"]
                   | defaults => defaults
                   end)) ->
  MultiSelect.MultiSelect props data = None.
Proof.
  intros Hall. unfold MultiSelect.MultiSelect.
  rewrite serverNamesForFiltering_fallback.
  rewrite (filter_all_excluded _ _ Hall). reflexivity.
Qed.

Lemma MultiSelect_null_when_only_defaults_witness :
  MultiSelect.MultiSelect
    {| MultiSelect.items := ["web"; "search"];
       MultiSelect.label := None;
       MultiSelect.placeholder := Some "MCP Servers";
       MultiSelect.onSelectedValuesChange := None;
       MultiSelect.renderSelectedValues := None;
       MultiSelect.selectedValues := Some ["time"];
       MultiSelect.setSelectedValues :=
         fun (values : list string) (_ : list string) => Ok values |}
    (Some [])
  = None.
Proof.
  apply MultiSelect_null_when_only_defaults.
  simpl. intros v Hv. exact Hv.
Defined.

(** ** The selector *)

Import MCPSelect.

(** C9. [MCPSelect] returns [null] whenever the fetched server set is
    missing (as it is until the query resolves) or empty; when it renders,
    at least one server is in the set. *)
Theorem MCPSelect_null_without_servers
    (localize : Localize) (mcpServerSet : option (list string))
    (memoDefaults callbackDefaults : list string) (st : State) :
  (mcpServerSet = None \/ mcpServerSet = Some [] ->
   MCPSelect localize mcpServerSet memoDefaults callbackDefaults st = None)
  /\ (forall props,
        MCPSelect localize mcpServerSet memoDefaults callbackDefaults st
        = Some props ->
        exists server servers, mcpServerSet = Some (server :: servers)).
Proof.
  split.
  - intros [-> | ->]; reflexivity.
  - intros props. unfold MCPSelect.
    destruct mcpServerSet as [[|server servers]|]; simpl; try discriminate.
    eauto.
Qed.

Lemma MCPSelect_null_without_servers_witness :
  MCPSelect localize_en None ["time"] ["time"] (emptyState None) = None.
Proof.
  apply (proj1 (MCPSelect_null_without_servers
                  localize_en None ["time"] ["time"] (emptyState None))).
  left. reflexivity.
Defined.

(** *** The setters *)

Lemma setSelectedValues_array (l : list string) (st : State) :
  setSelectedValues (JArray l) st = Ok (setEphemeralAgent (withMcp l) st).
Proof. reflexivity. Qed.

Lemma setMCPValues_Ok (value : list string) (st : State) :
  exists st',
    setMCPValues value st = Ok st'
    /\ conversationId st' = conversationId st
    /\ hasSetFetched st' = hasSetFetched st
    /\ mcpValues st' = Some value.
Proof.
  unfold setMCPValues. rewrite setSelectedValues_array.
  eexists. split; [reflexivity|]. repeat split.
Qed.

Lemma setMCPValues_saved (value : list string) (st : State) :
  exists st',
    setMCPValues value st = Ok st'
    /\ saved st' = (LAST_MCP_ +:+ key st, value) :: saved st
    /\ localStorage st' !! (LAST_MCP_ +:+ key st) = Some value.
Proof.
  unfold setMCPValues. rewrite setSelectedValues_array.
  eexists. split; [reflexivity|].
  cbn [setEphemeralAgent setItem set_mcpValues saved localStorage].
  split; [reflexivity | apply lookup_insert_eq].
Qed.

Lemma key_eq (st st' : State) :
  conversationId st' = conversationId st -> key st' = key st.
Proof. unfold key. now intros ->. Qed.

Lemma getSelected_key (st : State) :
  getSelected (key st) st = default [] (mcpValues st).
Proof. unfold getSelected. now rewrite decide_True. Qed.

(** *** The defaults effect *)

Lemma missingDefaults_after (values defaults : list string) :
  List.filter
    (fun server =>
       negb (includes
               (values ++ List.filter
                            (fun server => negb (includes values server))
                            defaults)
               server))
    defaults = [].
Proof.
  apply filter_all_excluded. intros v Hv. apply in_or_app.
  destruct (includes values v) eqn:Hin.
  - left. now apply includes_In.
  - right. apply filter_In. split; [assumption|]. now rewrite Hin.
Qed.

Lemma defaultsEffect_selected (defaults values : list string) (st : State) :
  mcpValues st = Some values ->
  exists st',
    defaultsEffect defaults st = Ok st'
    /\ conversationId st' = conversationId st
    /\ hasSetFetched st' = hasSetFetched st
    /\ mcpValues st' =
       Some (values ++ List.filter
                         (fun server => negb (includes values server))
                         defaults).
Proof.
  intros Hv. unfold defaultsEffect. rewrite Hv.
  destruct (List.filter _ defaults) as [|d missing] eqn:Hmiss; simpl.
  - exists st. rewrite app_nil_r. auto.
  - apply setMCPValues_Ok.
Qed.

Lemma defaultsEffect_Ok (defaults : list string) (st : State) :
  exists st' values,
    defaultsEffect defaults st = Ok st'
    /\ conversationId st' = conversationId st
    /\ hasSetFetched st' = hasSetFetched st
    /\ mcpValues st' = Some values
    /\ defaultsEffect defaults st' = Ok st'.
Proof.
  destruct (mcpValues st) as [values|] eqn:Hv.
  - destruct (defaultsEffect_selected defaults values st Hv)
      as (st' & Hrun & Hc & Hr & Hm).
    exists st'. eexists. repeat (split; [eassumption|]).
    unfold defaultsEffect. rewrite Hm, missingDefaults_after. reflexivity.
  - unfold defaultsEffect at 1. rewrite Hv.
    destruct (setMCPValues_Ok defaults st) as (st' & Hrun & Hc & Hr & Hm).
    exists st', defaults. repeat (split; [assumption|]).
    unfold defaultsEffect. rewrite Hm.
    rewrite filter_all_excluded by auto. reflexivity.
Qed.

(** C7. [onDefaultsChanged] is idempotent: running the defaults effect a
    second time with the same default list leaves the whole state, and so
    the selection of every context key, as the first run left it. *)
Theorem defaultsEffect_idempotent (defaults : list string) (st : State) :
  exists st1 st2,
    run [DefaultsChanged defaults] st = Ok st1
    /\ run [DefaultsChanged defaults; DefaultsChanged defaults] st = Ok st2
    /\ st2 = st1
    /\ forall k, getSelected k st2 = getSelected k st1.
Proof.
  destruct (defaultsEffect_Ok defaults st)
    as (st1 & values & Hrun & _ & _ & _ & Hagain).
  exists st1, st1. simpl. rewrite Hrun. simpl. rewrite Hagain.
  repeat split.
Qed.

(** C1 (as the code has it).  The defaults effect adds every default that
    is missing from the selection, whether or not the user took it out
    before: after [setSelected(k, V)], [onDefaultsChanged(D')] makes the
    selection [V] followed by the members of [D'] missing from [V], so
    every member of [D'] is selected again. *)
Theorem defaults_reinstated (st : State) (V D' : list string) :
  (exists st',
     defaultsEffect D' st = Ok st'
     /\ forall a, In a D' -> In a (getSelected (key st) st'))
  /\ (exists st',
        run [SetSelected V; DefaultsChanged D'] st = Ok st'
        /\ getSelected (key st) st' =
           V ++ List.filter (fun server => negb (includes V server)) D'
        /\ forall a, In a D' -> In a (getSelected (key st) st')).
Proof.
  assert (Hin : forall values a, In a D' ->
    In a (values ++ List.filter
                      (fun server => negb (includes values server)) D')).
  { intros values a Ha. apply in_or_app.
    destruct (includes values a) eqn:Hinc.
    - left. now apply includes_In.
    - right. apply filter_In. split; [assumption|]. now rewrite Hinc. }
  split.
  - destruct (mcpValues st) as [values|] eqn:Hv.
    + destruct (defaultsEffect_selected D' values st Hv)
        as (st' & Hrun & Hc & _ & Hm).
      exists st'. split; [assumption|]. intros a Ha.
      rewrite <- (key_eq _ _ Hc), getSelected_key, Hm. simpl. auto.
    + unfold defaultsEffect. rewrite Hv.
      destruct (setMCPValues_Ok D' st) as (st' & Hrun & Hc & _ & Hm).
      exists st'. split; [assumption|]. intros a Ha.
      rewrite <- (key_eq _ _ Hc), getSelected_key, Hm. exact Ha.
  - destruct (setMCPValues_Ok V st) as (st1 & Hset & Hc1 & _ & Hm1).
    destruct (defaultsEffect_selected D' V st1 Hm1)
      as (st' & Hrun & Hc & _ & Hm).
    exists st'. cbn [run step]. rewrite Hset. cbn [bind].
    rewrite Hrun. cbn [bind].
    assert (Hk : key st = key st').
    { symmetry. rewrite (key_eq _ _ Hc). now apply key_eq. }
    rewrite Hk, getSelected_key, Hm. simpl. auto.
Qed.

Lemma defaults_reinstated_witness :
  exists st',
    defaultsEffect ["a"; "b"; "c"]
      (mkState (Some "c1") None (Some ["b"]) ∅ ∅ []) = Ok st'
    /\ In "a" (getSelected "c1" st').
Proof.
  destruct (proj1 (defaults_reinstated
                     (mkState (Some "c1") None (Some ["b"]) ∅ ∅ [])
                     [] ["a"; "b"; "c"])) as (st' & Hrun & Hall).
  exists st'. split; [exact Hrun|].
  apply Hall. simpl. left. reflexivity.
Defined.

(** C1 fails as stated: with defaults [{a, b}] observed, the user selects
    [{b}]; the next [onDefaultsChanged({a, b, c})] yields [b, a, c], with
    [a] back in the selection. *)
Lemma removal_does_not_stick :
  exists st',
    run [DefaultsChanged ["a"; "b"]; SetSelected ["b"];
         DefaultsChanged ["a"; "b"; "c"]] (emptyState (Some "c1")) = Ok st'
    /\ getSelected "c1" st' = ["b"; "a"; "c"]
    /\ In "a" (getSelected "c1" st').
Proof.
  eexists. split; [vm_compute; reflexivity|].
  split; [reflexivity|]. right. left. reflexivity.
Qed.

(** *** The pruning effect *)

Lemma pruneEffect_done (isFetched : bool)
    (mcpServerSet : option (list string)) (st : State) :
  hasSetFetched st = Some (key st) ->
  pruneEffect isFetched mcpServerSet st = Ok st.
Proof.
  intros Href. unfold pruneEffect. now rewrite decide_True.
Qed.

Lemma pruneEffect_unfetched (mcpServerSet : option (list string))
    (st : State) :
  pruneEffect false mcpServerSet st = Ok st.
Proof.
  unfold pruneEffect. destruct (decide _); reflexivity.
Qed.

Lemma pruneEffect_first (mcpServerSet : option (list string))
    (values : list string) (st : State) :
  hasSetFetched st <> Some (key st) ->
  mcpValues st = Some values ->
  exists st',
    pruneEffect true mcpServerSet st = Ok st'
    /\ conversationId st' = conversationId st
    /\ hasSetFetched st' = Some (key st)
    /\ mcpValues st' =
       Some (match default [] mcpServerSet with
             | [] => []
             | available => List.filter (includes available) values
             end).
Proof.
  intros Href Hv. unfold pruneEffect. rewrite decide_False by assumption.
  simpl.
  destruct (default [] mcpServerSet) as [|server available] eqn:Hset; simpl.
  - destruct (setMCPValues_Ok [] (set_hasSetFetched (Some (key st)) st))
      as (st' & Hrun & Hc & Hr & Hm).
    exists st'. repeat (split; [assumption|]). assumption.
  - rewrite Hv.
    destruct (setMCPValues_Ok
                (List.filter (fun mcp => includes (server :: available) mcp)
                             values)
                (set_hasSetFetched (Some (key st)) st))
      as (st' & Hrun & Hc & Hr & Hm).
    exists st'. repeat (split; [assumption|]). assumption.
Qed.

(** C3. The first availability resolution for a key replaces the selection
    by its members that are in the available set when that set is not
    empty, and by the empty selection when it is empty (or missing); no
    default list enters the operation. *)
Theorem prune_is_intersection (mcpServerSet : option (list string))
    (selected : list string) (st : State) :
  hasSetFetched st <> Some (key st) ->
  mcpValues st = Some selected ->
  exists st',
    pruneEffect true mcpServerSet st = Ok st'
    /\ key st' = key st
    /\ hasSetFetched st' = Some (key st)
    /\ getSelected (key st) st' =
       match default [] mcpServerSet with
       | [] => []
       | available => List.filter (includes available) selected
       end
    /\ forall x, In x (getSelected (key st) st')
                 <-> In x selected /\ In x (default [] mcpServerSet).
Proof.
  intros Href Hv.
  destruct (pruneEffect_first mcpServerSet selected st Href Hv)
    as (st' & Hrun & Hc & Hr & Hm).
  exists st'. split; [assumption|].
  pose proof (key_eq _ _ Hc) as Hk.
  split; [assumption|]. split; [assumption|].
  rewrite <- Hk, getSelected_key, Hm. simpl. split; [reflexivity|].
  intros x. destruct (default [] mcpServerSet) as [|server available].
  - simpl. tauto.
  - rewrite filter_In, includes_In. reflexivity.
Qed.

Lemma prune_is_intersection_witness :
  exists st',
    pruneEffect true (Some [])
      (mkState (Some "c1") None (Some ["a"; "b"]) ∅ ∅ []) = Ok st'
    /\ getSelected "c1" st' = [].
Proof.
  destruct (prune_is_intersection (Some []) ["a"; "b"]
              (mkState (Some "c1") None (Some ["a"; "b"]) ∅ ∅ []))
    as (st' & Hrun & _ & _ & Hsel & _).
  - simpl. discriminate.
  - reflexivity.
  - exists st'. split; [exact Hrun | exact Hsel].
Defined.

(** *** Event sequences *)

Lemma run_app (es es' : list event) (st : State) :
  run (es ++ es') st = bind (run es st) (run es').
Proof.
  revert st. induction es as [|e es IH]; intros st; [reflexivity|].
  cbn [app run]. destruct (step e st) as [st1|err]; cbn [bind]; auto.
Qed.

Lemma step_total (e : event) (st : State) :
  is_Some (mcpValues st) ->
  exists st', step e st = Ok st' /\ is_Some (mcpValues st').
Proof.
  intros [values Hv]. destruct e as [v|defaults|fetched servers|id];
    cbn [step].
  - destruct (setMCPValues_Ok v st) as (st' & Hrun & _ & _ & Hm).
    exists st'. split; [assumption|]. rewrite Hm. eauto.
  - destruct (defaultsEffect_selected defaults values st Hv)
      as (st' & Hrun & _ & _ & Hm).
    exists st'. split; [assumption|]. rewrite Hm. eauto.
  - destruct (decide (hasSetFetched st = Some (key st))) as [Href|Href].
    + rewrite pruneEffect_done by assumption. exists st. eauto.
    + destruct fetched.
      * destruct (pruneEffect_first servers values st Href Hv)
          as (st' & Hrun & _ & _ & Hm).
        exists st'. split; [assumption|]. rewrite Hm. eauto.
      * rewrite pruneEffect_unfetched. exists st. eauto.
  - unfold conversationChanged. eexists. split; [reflexivity|].
    simpl. eauto.
Qed.

Lemma step_keeps_ref (e : event) (st : State) :
  isSwitch e = false ->
  hasSetFetched st = Some (key st) ->
  exists st', step e st = Ok st' /\ hasSetFetched st' = Some (key st').
Proof.
  intros Hsw Href.
  destruct e as [v|defaults|fetched servers|id]; cbn [step];
    try discriminate.
  - destruct (setMCPValues_Ok v st) as (st' & Hrun & Hc & Hr & _).
    exists st'. rewrite (key_eq _ _ Hc), Hr. auto.
  - destruct (defaultsEffect_Ok defaults st)
      as (st' & values & Hrun & Hc & Hr & _).
    exists st'. rewrite (key_eq _ _ Hc), Hr. auto.
  - rewrite pruneEffect_done by assumption. exists st. auto.
Qed.

Lemma run_keeps_ref (es : list event) (st : State) :
  forallb (fun e => negb (isSwitch e)) es = true ->
  hasSetFetched st = Some (key st) ->
  exists st', run es st = Ok st' /\ hasSetFetched st' = Some (key st').
Proof.
  revert st. induction es as [|e es IH]; intros st Hes Href.
  - exists st. auto.
  - cbn [forallb] in Hes. apply andb_true_iff in Hes as [He Hes].
    apply negb_true_iff in He.
    destruct (step_keeps_ref e st He Href) as (st1 & Hstep & Href1).
    destruct (IH st1 Hes Href1) as (st' & Hrun & Href').
    exists st'. cbn [run]. rewrite Hstep. cbn [bind]. auto.
Qed.

Lemma pruneEffect_sets_ref (mcpServerSet : option (list string))
    (st st1 : State) :
  pruneEffect true mcpServerSet st = Ok st1 ->
  hasSetFetched st1 = Some (key st1).
Proof.
  unfold pruneEffect.
  destruct (decide (hasSetFetched st = Some (key st))) as [Href|Href].
  - intros Hok. inversion Hok; subst st1. exact Href.
  - cbn [negb].
    set (st0 := set_hasSetFetched (Some (key st)) st).
    assert (Hset : forall value, setMCPValues value st0 = Ok st1 ->
                                 hasSetFetched st1 = Some (key st1)).
    { intros value Hrun.
      destruct (setMCPValues_Ok value st0) as (s & Hs & Hc & Hr & _).
      rewrite Hrun in Hs. inversion Hs; subst s.
      rewrite (key_eq _ _ Hc), Hr. reflexivity. }
    destruct (Nat.ltb 0 _); [|apply Hset].
    destruct (mcpValues st0); [apply Hset | discriminate].
Qed.

(** C2 (as the code has it).  Pruning waits for [isFetched], and it runs
    once for as long as the component stays on one context key: after a
    first resolution, a second one is a no-op whatever selections and
    default changes came in between.  ([hasSetFetched] remembers the last
    pruned key only.) *)
Theorem prune_once_per_visit
    (A1 A2 : option (list string)) (fetched2 : bool)
    (es : list event) (st : State) :
  forallb (fun e => negb (isSwitch e)) es = true ->
  pruneEffect false A1 st = Ok st
  /\ run (AvailabilityResolved true A1 :: es
            ++ [AvailabilityResolved fetched2 A2]) st
     = run (AvailabilityResolved true A1 :: es) st
  /\ (is_Some (mcpValues st) ->
      exists st', run (AvailabilityResolved true A1 :: es) st = Ok st').
Proof.
  intros Hes. split; [apply pruneEffect_unfetched|].
  cbn [run step].
  destruct (pruneEffect true A1 st) as [st1|err] eqn:Hrun1; cbn [bind].
  - pose proof (pruneEffect_sets_ref A1 st st1 Hrun1) as Href1.
    destruct (run_keeps_ref es st1 Hes Href1) as (st' & Hrun & Href').
    split; [|eauto].
    rewrite run_app, Hrun. cbn [bind run step].
    now rewrite pruneEffect_done.
  - split; [reflexivity|]. intros Hv.
    destruct (step_total (AvailabilityResolved true A1) st Hv)
      as (st' & Hstep & _).
    cbn [step] in Hstep. congruence.
Qed.

Lemma prune_once_per_visit_witness :
  run ([AvailabilityResolved true (Some ["time"; "web"; "search"]);
        SetSelected ["time"; "web"]]
         ++ [AvailabilityResolved true (Some ["time"])])
      (mkState (Some "c1") None (Some ["time"]) ∅ ∅ [])
  = run [AvailabilityResolved true (Some ["time"; "web"; "search"]);
         SetSelected ["time"; "web"]]
        (mkState (Some "c1") None (Some ["time"]) ∅ ∅ []).
Proof.
  apply (proj1 (proj2 (prune_once_per_visit
                  (Some ["time"; "web"; "search"]) (Some ["time"]) true
                  [SetSelected ["time"; "web"]]
                  (mkState (Some "c1") None (Some ["time"]) ∅ ∅ [])
                  eq_refl))).
Defined.

(** C2 fails as stated: after the prune of [c1] the user adds [web]; the
    component then shows [c2], where availability resolves too, and
    returns to [c1]; the next resolution prunes [c1] again and removes
    [web]. *)
Lemma prune_reruns_after_switch :
  let st0 := mkState (Some "c1") None (Some ["time"]) ∅ ∅ [] in
  let es := [AvailabilityResolved true (Some ["time"; "web"]);
             SetSelected ["time"; "web"];
             ConversationChanged (Some "c2");
             AvailabilityResolved true (Some ["time"]);
             ConversationChanged (Some "c1")] in
  exists st1 st2,
    run es st0 = Ok st1
    /\ run (es ++ [AvailabilityResolved true (Some ["time"])]) st0 = Ok st2
    /\ getSelected "c1" st1 = ["time"; "web"]
    /\ getSelected "c1" st2 = ["time"]
    /\ st2 <> st1.
Proof.
  eexists. eexists.
  split; [vm_compute; reflexivity|].
  split; [vm_compute; reflexivity|].
  split; [reflexivity|]. split; [reflexivity|].
  intros Heq. apply (f_equal mcpValues) in Heq. vm_compute in Heq.
  discriminate.
Qed.

(** *** The storage condition *)

Lemma string_length_append (s t : string) :
  String.length (s +:+ t) = String.length s + String.length t.
Proof.
  induction s as [|c s IH]; simpl; [reflexivity | now rewrite IH].
Qed.

Lemma trimEnd_closing_bracket (s : string) :
  trimEnd (s +:+ "]") = s +:+ "]".
Proof.
  induction s as [|c s IH]; [reflexivity|].
  simpl. rewrite IH. destruct s; reflexivity.
Qed.

Lemma trim_JSON_stringify (l : list string) :
  trim (JSON_stringify l) = JSON_stringify l.
Proof.
  unfold trim, JSON_stringify.
  change ("[" +:+ String.concat "," (map quote l) +:+ "]")
    with (String "["%char (String.concat "," (map quote l) +:+ "]")).
  cbn [trimStart]. change (isWhiteSpace "["%char) with false. cbv iota.
  apply (trimEnd_closing_bracket
           (String "["%char (String.concat "," (map quote l)))).
Qed.

Lemma length_JSON_stringify_cons (x : string) (l : list string) :
  2 < String.length (JSON_stringify (x :: l)).
Proof.
  unfold JSON_stringify.
  rewrite !string_length_append. cbn [map String.concat].
  assert (Hq : 2 <= String.length (quote x)).
  { unfold quote. cbn [String.length].
    rewrite string_length_append. simpl. lia. }
  destruct (map quote l) as [|y ys].
  - simpl String.length at 1 3. lia.
  - rewrite !string_length_append. simpl String.length at 1. lia.
Qed.

Lemma storageCondition_stored (value : list string)
    (stored : option (list string)) :
  storageCondition (JArray value) (JSON_stringify <$> stored)
  = Nat.ltb 0 (length value) || Nat.ltb 0 (length (default [] stored)).
Proof.
  destruct stored as [[|x l]|]; cbn [fmap option_fmap option_map].
  - cbn. now rewrite orb_false_r.
  - unfold storageCondition.
    rewrite trim_JSON_stringify.
    pose proof (length_JSON_stringify_cons x l) as Hlen.
    apply Nat.ltb_lt in Hlen. rewrite Hlen.
    change (String.eqb (JSON_stringify (x :: l)) EmptyString) with false.
    cbn [negb default from_option id length].
    now rewrite orb_true_r.
  - cbn. now rewrite orb_false_r.
Qed.

Lemma storageCondition_non_empty (x : string) (l : list string)
    (rawCurrentValue : option string) :
  storageCondition (JArray (x :: l)) rawCurrentValue = true.
Proof.
  unfold storageCondition.
  change (Nat.ltb 0 (length (x :: l))) with true.
  destruct rawCurrentValue as [raw|]; [|reflexivity].
  destruct (negb (String.eqb raw EmptyString)); [|reflexivity].
  now destruct (Nat.ltb 2 (String.length (trim raw))).
Qed.





(** *** The label *)


(** *** Errors *)

(** C6 (as the code has it).  [setSelected] never signals an error: a
    value that is not an array leaves the state as it was, and an array is
    stored as given, repeated members included.  No other operation throws
    while the hook's value is an array. *)
Theorem setSelected_never_raises (values : jsval) (st : State) :
  (exists st', setSelectedValues values st = Ok st')
  /\ (isArray values = false -> setSelectedValues values st = Ok st)
  /\ (forall l, values = JArray l ->
        exists st', setSelectedValues values st = Ok st'
                    /\ mcpState st' = l)
  /\ (forall l, exists st', setMCPValues l st = Ok st'
                            /\ getSelected (key st) st' = l)
  /\ (forall e, is_Some (mcpValues st) -> exists st', step e st = Ok st').
Proof.
  assert (Harr : forall l, exists st',
    setSelectedValues (JArray l) st = Ok st' /\ mcpState st' = l).
  { intros l. rewrite setSelectedValues_array. eexists.
    split; [reflexivity|].
    unfold mcpState, ephemeralAgent, setEphemeralAgent.
    cbn [ephemeralAgentByConvoId].
    change (key (mkState _ _ _ _ _ _)) with (key st).
    now rewrite lookup_insert_eq. }
  split; [|split; [|split; [|split]]].
  - destruct values as [| |s|l]; unfold setSelectedValues; cbn [truthy negb];
      try (eexists; reflexivity).
    destruct (negb _); eexists; reflexivity.
  - destruct values as [| |s|l]; unfold setSelectedValues; cbn;
      try reflexivity; try discriminate.
    now destruct (negb _).
  - intros l ->. apply Harr.
  - intros l. destruct (setMCPValues_Ok l st) as (st' & Hrun & Hc & _ & Hm).
    exists st'. split; [assumption|].
    now rewrite <- (key_eq _ _ Hc), getSelected_key, Hm.
  - intros e Hv. destruct (step_total e st Hv) as (st' & Hstep & _). eauto.
Qed.

Lemma setSelected_never_raises_witness :
  setSelectedValues JNull (emptyState (Some "c1"))
  = Ok (emptyState (Some "c1")).
Proof.
  apply (proj1 (proj2 (setSelected_never_raises
                         JNull (emptyState (Some "c1"))))).
  reflexivity.
Defined.

(** C6 fails as stated: [null] is not a set of strings, yet no error is
    signalled and the selection stays as it was; and an array with a
    repeated member is stored with the repetition. *)
Lemma malformed_selection_not_signalled :
  let st0 := emptyState (Some "c1") in
  ~ properSet JNull
  /\ ~ (exists e, setSelectedValues JNull st0 = Throw e)
  /\ setSelectedValues JNull st0 = Ok st0
  /\ ~ properSet (JArray ["a"; "a"])
  /\ ~ (exists e, setSelectedValues (JArray ["a"; "a"]) st0 = Throw e)
  /\ exists st', setMCPValues ["a"; "a"] st0 = Ok st'
                 /\ getSelected "c1" st' = ["a"; "a"]
                 /\ mcpState st' = ["a"; "a"].
Proof.
  cbv zeta. split; [exact (fun H => H)|].
  split; [intros [e He]; discriminate He|].
  split; [reflexivity|].
  split.
  { simpl. intros Hnd. apply NoDup_cons in Hnd as [Hnotin _].
    apply Hnotin. left. }
  split; [intros [e He]; discriminate He|].
  eexists. split; [vm_compute; reflexivity|].
  split; reflexivity.
Qed.

(** *** The selector and its dropdown together *)

(** A change made in the dropdown rendered by [MCPSelect] is the hook's
    setter applied to the chosen values. *)
Lemma handleValueChange_setMCPValues
    (localize : Localize) (mcpServerSet : option (list string))
    (memoDefaults callbackDefaults : list string) (st0 : State)
    (props : MultiSelect.Props State) (values : list string) (st : State) :
  MCPSelect localize mcpServerSet memoDefaults callbackDefaults st0
  = Some props ->
  MultiSelect.handleValueChange props values st = setMCPValues values st.
Proof.
  unfold MCPSelect.
  destruct mcpServerSet as [[|server servers]|]; try discriminate.
  cbn [length Nat.eqb]. intros Hprops. inversion Hprops; subst props.
  unfold MultiSelect.handleValueChange.
  cbn [MultiSelect.setSelectedValues MultiSelect.onSelectedValuesChange].
  destruct (setMCPValues values st); reflexivity.
Qed.

(** The items offered never contain a default held by the memo. *)
Lemma mcpServers_without_defaults
    (mcpServerSet : option (list string)) (memoDefaults items : list string)
    (server : string) :
  mcpServers mcpServerSet memoDefaults = Some items ->
  In server items ->
  In server (default [] mcpServerSet) /\ ~ In server memoDefaults.
Proof.
  unfold mcpServers.
  destruct mcpServerSet as [servers|]; [|discriminate].
  destruct (Nat.eqb (length servers) 0); [discriminate|].
  intros Hitems Hin. injection Hitems as <-.
  now apply filter_excluded_In in Hin.
Qed.

(** *** Memoised closures *)


Lemma useMemo_kept {V : Type} (dependency : nat) (kept computed : V) :
  useMemo (Some (dependency, kept)) dependency computed = (dependency, kept).
Proof. unfold useMemo. now rewrite Nat.eqb_refl. Qed.

Lemma callbackDefaultsAfter_snoc (renders : list (nat * list string))
    (cell : option (nat * list string))
    (localizeStamp : nat) (defaults : list string) :
  callbackDefaultsAfter cell (renders ++ [(localizeStamp, defaults)])
  = Some (useMemo (callbackDefaultsAfter cell renders)
                  localizeStamp defaults).
Proof.
  revert cell. induction renders as [|[stamp ds] later IH]; intros cell.
  - reflexivity.
  - cbn [app callbackDefaultsAfter]. apply IH.
Qed.


(** In a render where [localize] is the function of the render before,
    the callback of that render is kept, with the default list it held. *)
Lemma callbackDefaults_kept (renders : list (nat * list string))
    (cell : option (nat * list string))
    (localizeStamp : nat) (kept defaults : list string) :
  callbackDefaultsAfter cell renders = Some (localizeStamp, kept) ->
  callbackDefaultsAfter cell (renders ++ [(localizeStamp, defaults)])
  = Some (localizeStamp, kept).
Proof.
  intros Hsame. rewrite callbackDefaultsAfter_snoc, Hsame.
  now rewrite useMemo_kept.
Qed.

(** *** The label and the current default list *)







(** *** Worked scenarios *)

Example label_only_default :
  renderSelectedValues localize_en ["time"] ["time"] (Some "MCP Servers")
  = "MCP Servers".
Proof. reflexivity. Qed.

Example label_single :
  renderSelectedValues localize_en ["time"] ["time"; "web"]
    (Some "MCP Servers")
  = "web".
Proof. reflexivity. Qed.

Example label_count :
  renderSelectedValues localize_en ["time"] ["time"; "web"; "search"]
    (Some "MCP Servers")
  = "2 selected".
Proof. reflexivity. Qed.

Example stringify_two : String.length (JSON_stringify ["a"; "b c"]) = 11.
Proof. reflexivity. Qed.

Example storageCondition_empty_store :
  storageCondition (JArray []) None = false
  /\ storageCondition (JArray []) (Some "[]") = false
  /\ storageCondition (JArray []) (Some (JSON_stringify ["time"])) = true
  /\ storageCondition (JArray ["time"]) None = true
  /\ storageCondition JNull (Some "  [] ") = false.
Proof. repeat split. Qed.

(** A fresh context: defaults arrive, availability resolves, the user adds
    [web], availability resolves again. *)
Example fresh_context_scenario :
  exists st',
    run [DefaultsChanged ["time"];
         AvailabilityResolved true (Some ["time"; "web"; "search"]);
         SetSelected ["time"; "web"];
         AvailabilityResolved true (Some ["time"])]
        (emptyState (Some "c1")) = Ok st'
    /\ getSelected "c1" st' = ["time"; "web"]
    /\ localStorage st' !! "LAST_MCP_c1" = Some ["time"; "web"]
    /\ hasSetFetched st' = Some "c1".
Proof.
  eexists. split; [vm_compute; reflexivity|]. repeat split.
Qed.

(** With the loading fallback as the only source of defaults and [time]
    selected, the dropdown is not rendered although items are offered. *)
Example dropdown_hidden_while_loading :
  MultiSelect.MultiSelect
    {| MultiSelect.items := ["web"];
       MultiSelect.label := None;
       MultiSelect.placeholder := None;
       MultiSelect.onSelectedValuesChange := None;
       MultiSelect.renderSelectedValues := None;
       MultiSelect.selectedValues := Some ["time"];
       MultiSelect.setSelectedValues := setMCPValues |}
    None
  = None.
Proof. reflexivity. Qed.

(** ** The available tools *)

Import AvailableTools.

Lemma string_app_nil_l (b : string) : EmptyString +:+ b = b.
Proof. reflexivity. Qed.

Lemma string_app_cons (x : ascii) (a b : string) :
  String x a +:+ b = String x (a +:+ b).
Proof. reflexivity. Qed.

Lemma string_app_assoc (a b c : string) :
  (a +:+ b) +:+ c = a +:+ (b +:+ c).
Proof.
  induction a as [|x a IH]; [reflexivity|].
  rewrite !string_app_cons. now rewrite IH.
Qed.

Lemma string_app_nil_r (a : string) : a +:+ EmptyString = a.
Proof.
  induction a as [|x a IH]; [reflexivity|].
  rewrite string_app_cons. now rewrite IH.
Qed.

Lemma string_app_eq_nil (a b : string) :
  EmptyString = a +:+ b -> a = EmptyString /\ b = EmptyString.
Proof.
  destruct a; [rewrite string_app_nil_l; auto|].
  rewrite string_app_cons. discriminate.
Qed.

Lemma startsWith_spec (s p : string) :
  startsWith s p = true <-> exists t, s = p +:+ t.
Proof.
  revert s. induction p as [|c p IH]; intros s; cbn [startsWith].
  - split; [intros _; now exists s | reflexivity].
  - destruct s as [|d s].
    + split; [discriminate | intros [t Ht]; discriminate].
    + rewrite andb_true_iff, Ascii.eqb_eq, IH. split.
      * intros [-> [t ->]]. now exists t.
      * intros [t Ht]. rewrite string_app_cons in Ht.
        injection Ht as -> ->. eauto.
Qed.

Lemma stringIncludes_false (s sub : string) :
  stringIncludes s sub = false
  <-> forall a b, s = a +:+ b -> startsWith b sub = false.
Proof.
  induction s as [|c s IH].
  - cbn [stringIncludes]. split.
    + intros H a b Hab. apply string_app_eq_nil in Hab as [_ ->].
      now destruct (startsWith EmptyString sub).
    + intros H. now rewrite (H EmptyString EmptyString eq_refl).
  - cbn [stringIncludes]. split.
    + intros H a b Hab.
      destruct (startsWith (String c s) sub) eqn:Hhere; [discriminate|].
      destruct a as [|x a].
      * rewrite string_app_nil_l in Hab. now subst b.
      * rewrite string_app_cons in Hab. injection Hab as -> Hs.
        exact (proj1 IH H a b Hs).
    + intros H. rewrite (H EmptyString (String c s) eq_refl).
      apply IH. intros a b Hab. apply (H (String c a) b).
      rewrite string_app_cons. now rewrite Hab.
Qed.

Lemma splitFrom_not_nil (sep : string) (s : string) :
  forall skip current, splitFrom sep skip current s <> [].
Proof.
  induction s as [|c s IH]; intros skip current; cbn [splitFrom].
  - discriminate.
  - destruct skip; [|apply IH].
    destruct (startsWith (String c s) sep); [discriminate | apply IH].
Qed.

Lemma last_cons_not_nil {A} (x d : A) (l : list A) :
  l <> [] -> List.last (x :: l) d = List.last l d.
Proof. destruct l; [congruence | reflexivity]. Qed.

Lemma last_splitFrom_suffix (sep : string) (s : string) :
  forall skip current,
    (skip <> 0 -> current = EmptyString) ->
    exists p,
      current +:+ s
      = p +:+ List.last (splitFrom sep skip current s) EmptyString.
Proof.
  induction s as [|c s IH]; intros skip current Hskip; cbn [splitFrom].
  - exists EmptyString. cbn [List.last]. apply string_app_nil_r.
  - destruct skip as [|skip].
    + destruct (startsWith (String c s) sep).
      * rewrite last_cons_not_nil by apply splitFrom_not_nil.
        destruct (IH (String.length sep - 1) EmptyString (fun _ => eq_refl))
          as [p Hp].
        rewrite string_app_nil_l in Hp. exists (current +:+ String c p).
        rewrite string_app_assoc, string_app_cons. now rewrite <- Hp.
      * destruct (IH 0 (current +:+ String c EmptyString)
                    (fun H => False_ind _ (H eq_refl))) as [p Hp].
        exists p. rewrite <- Hp, string_app_assoc. reflexivity.
    + rewrite (Hskip (Nat.neq_succ_0 skip)).
      destruct (IH skip EmptyString (fun _ => eq_refl)) as [p Hp].
      rewrite string_app_nil_l in *. exists (String c p).
      rewrite string_app_cons. now rewrite <- Hp.
Qed.

Lemma string_snoc_split (a b current : string) (c : ascii) :
  a +:+ b = current +:+ String c EmptyString ->
  b <> EmptyString ->
  exists b', b = b' +:+ String c EmptyString /\ current = a +:+ b'.
Proof.
  revert current. induction a as [|x a IH]; intros current Hab Hb.
  - rewrite string_app_nil_l in Hab. exists current. auto.
  - rewrite string_app_cons in Hab. destruct current as [|y current].
    + rewrite string_app_nil_l in Hab. injection Hab as _ Hab.
      symmetry in Hab. apply string_app_eq_nil in Hab as [_ ->].
      contradiction.
    + rewrite string_app_cons in Hab. injection Hab as -> Hab.
      destruct (IH current Hab Hb) as (b' & -> & ->).
      exists b'. auto.
Qed.

Lemma last_splitFrom_no_separator (sep : string) (s : string) :
  sep <> EmptyString ->
  forall skip current,
    (skip <> 0 -> current = EmptyString) ->
    (skip = 0 ->
     forall a b, current = a +:+ b -> b <> EmptyString ->
                 startsWith (b +:+ s) sep = false) ->
    stringIncludes (List.last (splitFrom sep skip current s) EmptyString) sep
    = false.
Proof.
  intros Hsep.
  assert (Hempty : startsWith EmptyString sep = false).
  { destruct sep; [contradiction | reflexivity]. }
  assert (Hnone : forall t a b, EmptyString = a +:+ b -> b <> EmptyString ->
                                startsWith (b +:+ t) sep = false).
  { intros t a b Hab Hb. apply string_app_eq_nil in Hab as [_ ->].
    contradiction. }
  induction s as [|c s IH]; intros skip current Hskip Hinv;
    cbn [splitFrom].
  - cbn [List.last]. apply stringIncludes_false. intros a b Hab.
    destruct skip as [|skip].
    + destruct b as [|y b]; [exact Hempty|].
      rewrite <- (string_app_nil_r (String y b)).
      now apply (Hinv eq_refl a).
    + rewrite (Hskip (Nat.neq_succ_0 skip)) in Hab.
      apply string_app_eq_nil in Hab as [_ ->]. exact Hempty.
  - destruct skip as [|skip].
    + destruct (startsWith (String c s) sep) eqn:Hhere.
      * rewrite last_cons_not_nil by apply splitFrom_not_nil.
        apply IH; [reflexivity | intros _; apply Hnone].
      * apply IH; [intros H; now destruct H|].
        intros _ a b Hab Hb. symmetry in Hab.
        destruct (string_snoc_split a b current c Hab Hb)
          as (b' & -> & Hcur).
        rewrite string_app_assoc, string_app_cons, string_app_nil_l.
        destruct b' as [|y b']; [exact Hhere|].
        now apply (Hinv eq_refl a).
    + apply IH; [intros _; apply (Hskip (Nat.neq_succ_0 skip))|].
      intros _. rewrite (Hskip (Nat.neq_succ_0 skip)). apply Hnone.
Qed.

Lemma last_splitFrom_after_separator (sep : string) (s : string) :
  sep <> EmptyString ->
  (forall current,
     (List.last (splitFrom sep 0 current s) EmptyString = current +:+ s
      /\ stringIncludes s sep = false)
     \/ exists before,
          current +:+ s
          = before +:+ sep
              +:+ List.last (splitFrom sep 0 current s) EmptyString)
  /\ (forall r m,
        s = r +:+ m ->
        List.last (splitFrom sep (String.length r) EmptyString s) EmptyString
        = m
        \/ exists before,
             m = before +:+ sep
                   +:+ List.last
                         (splitFrom sep (String.length r) EmptyString s)
                         EmptyString).
Proof.
  intros Hsep.
  assert (Hempty : startsWith EmptyString sep = false).
  { destruct sep; [contradiction | reflexivity]. }
  induction s as [|c s [IHzero IHskip]].
  - split.
    + intros current. left. cbn [splitFrom List.last stringIncludes].
      rewrite Hempty, string_app_nil_r. auto.
    + intros r m Hrm. apply string_app_eq_nil in Hrm as [-> ->].
      left. reflexivity.
  - assert (Hzero : forall current,
      (List.last (splitFrom sep 0 current (String c s)) EmptyString
       = current +:+ String c s
       /\ stringIncludes (String c s) sep = false)
      \/ exists before,
           current +:+ String c s
           = before +:+ sep
               +:+ List.last (splitFrom sep 0 current (String c s))
                     EmptyString).
    { intros current. cbn [splitFrom stringIncludes].
      destruct (startsWith (String c s) sep) eqn:Hhere.
      - right. rewrite last_cons_not_nil by apply splitFrom_not_nil.
        apply startsWith_spec in Hhere as [m Hm].
        destruct sep as [|d r]; [contradiction|].
        rewrite string_app_cons in Hm. injection Hm as <- Hs.
        cbn [String.length]. rewrite Nat.sub_succ, Nat.sub_0_r.
        destruct (IHskip r m Hs) as [Hlast | [before Hlast]].
        + exists current. rewrite Hlast, string_app_cons.
          now rewrite <- Hs.
        + exists (current +:+ String c r +:+ before).
          set (name := List.last _ _) in *.
          assert (Hkey : String c s
                         = String c r +:+ before +:+ String c r +:+ name).
          { rewrite string_app_cons. f_equal. now rewrite <- Hlast. }
          rewrite Hkey, !string_app_assoc. reflexivity.
      - destruct (IHzero (current +:+ String c EmptyString))
          as [[Hlast Hnone] | [before Hlast]].
        + left. rewrite Hlast, string_app_assoc. auto.
        + right. exists before. rewrite <- Hlast, string_app_assoc.
          reflexivity. }
    split; [exact Hzero|].
    intros r m Hrm. destruct r as [|d r].
    + rewrite string_app_nil_l in Hrm. subst m. cbn [String.length].
      destruct (Hzero EmptyString) as [[Hlast _] | [before Hlast]].
      * left. now rewrite Hlast.
      * right. exists before. now rewrite string_app_nil_l in Hlast.
    + rewrite string_app_cons in Hrm. injection Hrm as <- Hs.
      cbn [String.length splitFrom]. exact (IHskip r m Hs).
Qed.

(** X1. The server name taken from a plugin key is the end of the key:
    it contains no separator, and in the key of an MCP tool it comes
    right after a separator. *)
Theorem serverNameOf_suffix_without_delimiter
    (mcp_delimiter : string) (tool : TPlugin) :
  mcp_delimiter <> EmptyString ->
  (exists before,
     pluginKey tool = before +:+ serverNameOf mcp_delimiter tool)
  /\ stringIncludes (serverNameOf mcp_delimiter tool) mcp_delimiter = false
  /\ (stringIncludes (pluginKey tool) mcp_delimiter = true ->
      exists before,
        pluginKey tool
        = before +:+ mcp_delimiter +:+ serverNameOf mcp_delimiter tool).
Proof.
  intros Hsep. unfold serverNameOf, split. split; [|split].
  - destruct (last_splitFrom_suffix mcp_delimiter (pluginKey tool)
                0 EmptyString (fun H => False_ind _ (H eq_refl)))
      as [p Hp].
    exists p. exact Hp.
  - apply last_splitFrom_no_separator; [assumption | congruence |].
    intros _ a b Hab Hb. apply string_app_eq_nil in Hab as [_ ->].
    contradiction.
  - intros Hmcp.
    destruct (proj1 (last_splitFrom_after_separator
                       mcp_delimiter (pluginKey tool) Hsep) EmptyString)
      as [[_ Hnone] | [before Hlast]]; [congruence|].
    exists before. exact Hlast.
Qed.

Lemma serverNameOf_suffix_without_delimiter_witness :
  serverNameOf "_mcp_" {| pluginKey := "a_mcp_mcp_x"; chatMenu := None |}
  = "mcp_x"
  /\ stringIncludes
       (serverNameOf "_mcp_"
          {| pluginKey := "a_mcp_mcp_x"; chatMenu := None |}) "_mcp_"
     = false.
Proof.
  split; [reflexivity|].
  apply (proj1 (proj2 (serverNameOf_suffix_without_delimiter "_mcp_"
                  {| pluginKey := "a_mcp_mcp_x"; chatMenu := None |}
                  ltac:(discriminate)))).
Defined.

Lemma setAdd_In (set : list string) (x y : string) :
  In y (setAdd set x) <-> In y set \/ y = x.
Proof.
  unfold setAdd. destruct (includes set x) eqn:Hin.
  - apply includes_In in Hin. split; [auto | intros [H | ->]; assumption].
  - rewrite in_app_iff. simpl. intuition congruence.
Qed.

Lemma setAdd_NoDup (set : list string) (x : string) :
  NoDup set -> NoDup (setAdd set x).
Proof.
  intros Hnd. unfold setAdd. destruct (includes set x) eqn:Hin;
    [assumption|].
  apply includes_false in Hin. apply NoDup_app. split; [assumption|].
  split; [|apply NoDup_singleton].
  intros y Hy Hyx. apply list_elem_of_In in Hy.
  apply list_elem_of_singleton in Hyx. subst y. contradiction.
Qed.

Lemma fold_visit_In (mcp_delimiter : string) (data : list TPlugin) :
  forall (serverNames : list string) (name : string),
    In name (fold_left (visit mcp_delimiter) data serverNames)
    <-> In name serverNames
        \/ exists tool,
             In tool data
             /\ isListedMCP mcp_delimiter tool = true
             /\ serverNameOf mcp_delimiter tool = name.
Proof.
  induction data as [|tool data IH]; intros serverNames name;
    cbn [fold_left].
  - split; [auto | intros [H | (t & [] & _)]; assumption].
  - rewrite IH. unfold visit at 1.
    destruct (isListedMCP mcp_delimiter tool) eqn:Hlisted.
    + rewrite setAdd_In. split.
      * intros [[H | ->] | (t & Ht & Hl & Hn)]; eauto 7 using in_eq, in_cons.
      * intros [H | (t & [<- | Ht] & Hl & Hn)]; eauto 7.
    + split.
      * intros [H | (t & Ht & Hl & Hn)]; eauto 7 using in_cons.
      * intros [H | (t & [<- | Ht] & Hl & Hn)]; [auto | congruence | eauto 7].
Qed.

Lemma fold_visit_NoDup (mcp_delimiter : string) (data : list TPlugin) :
  forall serverNames,
    NoDup serverNames ->
    NoDup (fold_left (visit mcp_delimiter) data serverNames).
Proof.
  induction data as [|tool data IH]; intros serverNames Hnd;
    cbn [fold_left]; [assumption|].
  apply IH. unfold visit. destruct (isListedMCP mcp_delimiter tool);
    [now apply setAdd_NoDup | assumption].
Qed.

(** X2. The server set holds exactly the server names of the tools whose
    plugin key contains the separator and whose [chatMenu] is not [false],
    each once: other tools add nothing. *)
Theorem select_members (mcp_delimiter : string) (data : list TPlugin)
    (name : string) :
  (In name (select mcp_delimiter data)
   <-> exists tool,
         In tool data
         /\ stringIncludes (pluginKey tool) mcp_delimiter = true
         /\ chatMenu tool <> Some false
         /\ serverNameOf mcp_delimiter tool = name)
  /\ NoDup (select mcp_delimiter data).
Proof.
  split; [|apply fold_visit_NoDup, NoDup_nil_2].
  unfold select. rewrite fold_visit_In. cbn [In].
  assert (Hlisted : forall tool,
    isListedMCP mcp_delimiter tool = true
    <-> stringIncludes (pluginKey tool) mcp_delimiter = true
        /\ chatMenu tool <> Some false).
  { intros tool. unfold isListedMCP.
    rewrite andb_true_iff, negb_true_iff, bool_decide_eq_false.
    reflexivity. }
  split.
  - intros [[] | (tool & Ht & Hl & Hn)].
    apply Hlisted in Hl as [Hmcp Hmenu]. eauto 7.
  - intros (tool & Ht & Hmcp & Hmenu & Hn). right. exists tool.
    split; [assumption|]. split; [|assumption].
    apply Hlisted. auto.
Qed.

Lemma select_members_witness :
  In "web"
     (select "_mcp_"
        [ {| pluginKey := "search_mcp_web"; chatMenu := None |};
          {| pluginKey := "now_mcp_time"; chatMenu := Some false |} ]).
Proof.
  apply (proj1 (select_members "_mcp_"
                  [ {| pluginKey := "search_mcp_web"; chatMenu := None |};
                    {| pluginKey := "now_mcp_time"; chatMenu := Some false |} ]
                  "web")).
  exists {| pluginKey := "search_mcp_web"; chatMenu := None |}.
  split; [left; reflexivity|].
  split; [reflexivity|]. split; [discriminate | reflexivity].
Defined.

(** ** The Polygon.io tool *)

Import PolygonIO.

Lemma countChar_app (c : ascii) (a b : string) :
  countChar c (a +:+ b) = countChar c a + countChar c b.
Proof.
  induction a as [|x a IH]; [reflexivity|].
  rewrite string_app_cons. cbn [countChar]. rewrite IH. lia.
Qed.

Lemma countChar_toUpperCase_question (s : string) :
  countChar "?" (toUpperCase s) = countChar "?" s.
Proof.
  induction s as [|c s IH]; [reflexivity|].
  cbn [toUpperCase countChar]. rewrite IH. f_equal.
  destruct c as [[] [] [] [] [] [] [] []]; reflexivity.
Qed.

Lemma countChar_trimStart (c : ascii) (s : string) :
  countChar c (trimStart s) <= countChar c s.
Proof.
  induction s as [|d s IH]; cbn [trimStart countChar]; [lia|].
  destruct (isWhiteSpace d); cbn [countChar]; lia.
Qed.

Lemma countChar_trimEnd (c : ascii) (s : string) :
  countChar c (trimEnd s) <= countChar c s.
Proof.
  induction s as [|d s IH]; cbn [trimEnd countChar]; [lia|].
  destruct (trimEnd s) as [|e t] eqn:Ht.
  - destruct (isWhiteSpace d); cbn [countChar] in *; lia.
  - cbn [countChar] in *. lia.
Qed.

Lemma countChar_trim (c : ascii) (s : string) :
  countChar c (trim s) <= countChar c s.
Proof.
  unfold trim. etransitivity; [apply countChar_trimEnd|].
  apply countChar_trimStart.
Qed.

Lemma stringIncludes_char (c : ascii) (s : string) :
  stringIncludes s (String c EmptyString) = Nat.ltb 0 (countChar c s).
Proof.
  induction s as [|d s IH]; [reflexivity|].
  cbn [stringIncludes startsWith countChar]. rewrite IH.
  destruct (Ascii.eqb c d); reflexivity.
Qed.

Lemma startsWith_app (a b : string) : startsWith (a +:+ b) a = true.
Proof. apply startsWith_spec. now exists b. Qed.

(** X3. The constructor throws exactly when no key is passed in the
    fields, the environment variable is missing or empty, and [override]
    is not set; a key passed in the fields is taken as it is, even when it
    is empty. *)
Theorem construct_throws_iff (fields : Fields) (env : option string) :
  ((exists e, construct fields env = Throw e)
   <-> fields_apiKey fields = None
       /\ default EmptyString env = EmptyString
       /\ default false (fields_override fields) = false)
  /\ (forall key, fields_apiKey fields = Some key ->
        exists tool, construct fields env = Ok tool
                     /\ apiKey tool = Some key)
  /\ (forall tool, construct fields env = Ok tool ->
        baseUrl tool = "https://api.polygon.io"
        /\ (fields_apiKey fields = None -> apiKey tool = env)).
Proof.
  unfold construct, getApiKey.
  destruct (fields_apiKey fields) as [key|] eqn:Hkey; cbn [bind].
  - split; [split|split].
    + intros [e He]. discriminate.
    + intros [Hnone _]. discriminate.
    + intros k Hk. injection Hk as <-. eexists. split; reflexivity.
    + intros tool Htool. injection Htool as <-. split; [reflexivity|].
      discriminate.
  - destruct (String.eqb_spec (default EmptyString env) EmptyString)
      as [Hempty|Hfull];
      destruct (default false (fields_override fields)) eqn:Hov;
      cbn [andb negb bind].
    + split; [split|split].
      * intros [e He]. discriminate.
      * intros (_ & _ & H). discriminate.
      * discriminate.
      * intros tool Htool. injection Htool as <-. auto.
    + split; [split|split].
      * auto.
      * intros _. eexists. reflexivity.
      * discriminate.
      * discriminate.
    + split; [split|split].
      * intros [e He]. discriminate.
      * intros (_ & H & _). contradiction.
      * discriminate.
      * intros tool Htool. injection Htool as <-. auto.
    + split; [split|split].
      * intros [e He]. discriminate.
      * intros (_ & H & _). contradiction.
      * discriminate.
      * intros tool Htool. injection Htool as <-. auto.
Qed.

Lemma construct_throws_iff_witness :
  exists tool,
    construct {| fields_override := None; fields_apiKey := Some EmptyString |}
              None = Ok tool
    /\ apiKey tool = Some EmptyString.
Proof.
  apply (proj1 (proj2 (construct_throws_iff
                         {| fields_override := None;
                            fields_apiKey := Some EmptyString |} None))).
  reflexivity.
Defined.

Section PolygonCall.

Variable number : Type.
Variable numberToString : number -> string.
Variable helpText : string.
Variable fetch : string -> result Response.

Lemma urlFor_shape (tool : PolygonTool) (endpoint : string) :
  startsWith (urlFor tool endpoint) (baseUrl tool) = true
  /\ exists before,
       urlFor tool endpoint
       = before +:+ "apiKey=" +:+ default "undefined" (apiKey tool).
Proof.
  unfold urlFor. rewrite string_app_assoc. split; [apply startsWith_app|].
  destruct (stringIncludes endpoint "?").
  - exists (baseUrl tool +:+ endpoint +:+ "&").
    now rewrite !string_app_assoc.
  - exists (baseUrl tool +:+ endpoint +:+ "?").
    now rewrite !string_app_assoc.
Qed.

Ltac case_action :=
  match goal with
  | |- context [if actionIs ?t ?a ?n then _ else _] =>
      let H := fresh "Haction" in destruct (actionIs t a n) eqn:H
  | H : context [if actionIs ?t ?a ?n then _ else _] |- _ =>
      let H' := fresh "Haction" in destruct (actionIs t a n) eqn:H'
  end.

Ltac use_actions :=
  cbn [existsb];
  repeat match goal with
         | H : actionIs _ _ _ = _ |- _ => rewrite H; clear H
         end;
  cbn [orb].

(** X4. A request is made only for one of the nine endpoint actions with
    its required arguments present: a non-empty string [symbol] for the
    two ticker actions, a number [limit] and a non-empty string [sort]
    for the three listing actions.  There is then exactly one request; its
    URL starts with the base URL and ends with the key parameter. *)
Theorem request_only_with_valid_arguments
    (tool : PolygonTool) (args : RawArgs number) (url : string)
    (rest : list string) :
  fst (call number numberToString helpText fetch tool args) = url :: rest ->
  rest = []
  /\ actionIs number (action number args) "help" = false
  /\ ((existsb (actionIs number (action number args))
         ["prev_aggregate"; "related_companies"] = true
       /\ nonEmptyString number (symbol number args) = true)
      \/ (existsb (actionIs number (action number args))
            ["list_tickers"; "conditions"; "short_interest"] = true
          /\ isNumber number (limit number args) = true
          /\ nonEmptyString number (sort number args) = true)
      \/ existsb (actionIs number (action number args))
           ["ticker_types"; "exchanges"; "marketstatus_upcoming";
            "marketstatus_now"] = true)
  /\ startsWith url (baseUrl tool) = true
  /\ exists before,
       url = before +:+ "apiKey=" +:+ default "undefined" (apiKey tool).
Proof.
  unfold call.
  destruct (actionIs number (action number args) "help") eqn:Hhelp;
    [discriminate|].
  destruct (endpointFor number numberToString args) as [message|endpoint]
    eqn:Hendpoint; [discriminate|].
  cbn [fst]. intros Hurl. injection Hurl as <- <-.
  split; [reflexivity|]. split; [reflexivity|].
  split; [|apply urlFor_shape].
  clear Hhelp. unfold endpointFor in Hendpoint.
  repeat case_action;
    repeat match type of Hendpoint with
           | (if negb ?b then _ else _) = _ =>
               let Hb := fresh "Hvalid" in
               destruct b eqn:Hb; cbn [negb] in Hendpoint
           end;
    try discriminate.
  all: try (left; split;
            [use_actions; reflexivity | first [reflexivity | assumption]]).
  all: try (right; left; apply andb_true_iff in Hvalid as [? ?];
            split; [use_actions; reflexivity | auto]).
  all: right; right; use_actions; reflexivity.
Qed.

(** X5. Whatever happens, the string returned is the help text (for the
    [help] action), or the indented JSON text of a response that arrived
    with [ok] set, or a message that starts with [Error: ]. *)
Theorem call_result_shape (tool : PolygonTool) (args : RawArgs number) :
  let result := snd (call number numberToString helpText fetch tool args) in
  (actionIs number (action number args) "help" = true /\ result = helpText)
  \/ startsWith result "Error: " = true
  \/ exists url response body,
       fst (call number numberToString helpText fetch tool args) = [url]
       /\ fetch url = Ok response
       /\ ok response = true
       /\ json response = Ok body
       /\ result = match body with
                   | JsonNull => "null"
                   | JsonOf v => json_pretty v
                   end.
Proof.
  cbv zeta. unfold call.
  destruct (actionIs number (action number args) "help") eqn:Hhelp;
    [left; auto|].
  right.
  destruct (endpointFor number numberToString args) as [message|endpoint]
    eqn:Hendpoint; cbn [fst snd].
  - left. unfold endpointFor in Hendpoint.
    repeat case_action;
      repeat match type of Hendpoint with
             | (if negb ?b then _ else _) = _ =>
                 destruct b; cbn [negb] in Hendpoint
             end;
      try discriminate; injection Hendpoint as <-; reflexivity.
  - destruct (fetch (urlFor tool endpoint)) as [response|err] eqn:Hfetch;
      cbn [bind]; [|left; reflexivity].
    unfold handleResponse.
    destruct (json response) as [body|err] eqn:Hjson; cbn [bind];
      [|left; reflexivity].
    destruct (ok response) eqn:Hok; cbn [negb].
    + right. exists (urlFor tool endpoint), response, body. auto.
    + left. destruct body as [|v]; [reflexivity|].
      destruct (bool_decide _); reflexivity.
Qed.

Lemma endpoint_question_marks (args : RawArgs number) (endpoint : string) :
  endpointFor number numberToString args = inr endpoint ->
  countChar "?" (render number numberToString (symbol number args)) = 0 ->
  countChar "?" (render number numberToString (limit number args)) = 0 ->
  countChar "?" (render number numberToString (sort number args)) = 0 ->
  countChar "?" endpoint <= 1.
Proof.
  intros Hendpoint Hsymbol Hlimit Hsort.
  assert (Hticker : countChar "?" (ticker number numberToString
                                     (symbol number args)) = 0).
  { unfold ticker. rewrite countChar_toUpperCase_question.
    pose proof (countChar_trim "?"
                  (render number numberToString (symbol number args))).
    lia. }
  unfold endpointFor in Hendpoint.
  repeat case_action;
    repeat match type of Hendpoint with
           | (if negb ?b then _ else _) = _ =>
               destruct b; cbn [negb] in Hendpoint
           end;
    try discriminate; injection Hendpoint as <-;
    rewrite ?countChar_app, ?Hticker, ?Hlimit, ?Hsort;
    cbn; lia.
Qed.

(** X6. When neither the arguments nor the key nor the base URL contain a
    question mark, the URL requested contains exactly one: the key is
    added with [&] to an endpoint that has a query and with [?] to one
    that has none. *)
Theorem url_has_one_question_mark
    (tool : PolygonTool) (args : RawArgs number) (url : string) :
  fst (call number numberToString helpText fetch tool args) = [url] ->
  countChar "?" (baseUrl tool) = 0 ->
  countChar "?" (default "undefined" (apiKey tool)) = 0 ->
  countChar "?" (render number numberToString (symbol number args)) = 0 ->
  countChar "?" (render number numberToString (limit number args)) = 0 ->
  countChar "?" (render number numberToString (sort number args)) = 0 ->
  countChar "?" url = 1.
Proof.
  unfold call.
  destruct (actionIs number (action number args) "help"); [discriminate|].
  destruct (endpointFor number numberToString args) as [message|endpoint]
    eqn:Hendpoint; [discriminate|].
  cbn [fst]. intros Hurl Hbase Hkey Hsymbol Hlimit Hsort.
  injection Hurl as <-.
  pose proof (endpoint_question_marks args endpoint Hendpoint
                Hsymbol Hlimit Hsort) as Hone.
  unfold urlFor. rewrite !countChar_app, Hbase.
  rewrite (stringIncludes_char "?" endpoint).
  destruct (Nat.ltb_spec 0 (countChar "?" endpoint));
    rewrite countChar_app, Hkey; cbn; lia.
Qed.

Lemma trim_white_space (s : string) :
  forallb isWhiteSpace (list_ascii_of_string s) = true ->
  trim s = EmptyString.
Proof.
  intros Hblank. unfold trim.
  assert (Hstart : trimStart s = EmptyString).
  { induction s as [|c s IH]; [reflexivity|].
    cbn [list_ascii_of_string forallb] in Hblank.
    apply andb_true_iff in Hblank as [Hc Hs].
    cbn [trimStart]. rewrite Hc. auto. }
  now rewrite Hstart.
Qed.

(** X7. [prev_aggregate] checks the symbol before trimming it: a symbol
    that is not empty and is made of ASCII white space only (tab, line
    feed, vertical tab, form feed, carriage return, space) passes the
    check, and the request goes out with an empty ticker in its path. *)
Theorem blank_symbol_is_requested
    (tool : PolygonTool) (args : RawArgs number) (s : string) :
  action number args = Str "prev_aggregate" ->
  symbol number args = Str s ->
  s <> EmptyString ->
  forallb isWhiteSpace (list_ascii_of_string s) = true ->
  fst (call number numberToString helpText fetch tool args)
  = [baseUrl tool +:+ "/v2/aggs/ticker//prev?adjusted=true&apiKey="
       +:+ default "undefined" (apiKey tool)].
Proof.
  intros Haction Hsymbol Hs Hblank. unfold call, endpointFor.
  rewrite Haction, Hsymbol. cbn [actionIs nonEmptyString].
  change (String.eqb "prev_aggregate" "help") with false.
  change (String.eqb "prev_aggregate" "prev_aggregate") with true.
  destruct (String.eqb_spec s EmptyString) as [|_]; [contradiction|].
  cbn [negb fst]. unfold ticker. cbn [render].
  rewrite (trim_white_space s Hblank).
  cbn [toUpperCase]. unfold urlFor.
  change (stringIncludes
            ("/v2/aggs/ticker/" +:+ EmptyString +:+ "/prev"
               +:+ "?adjusted=true") "?") with true.
  cbv iota. now rewrite string_app_assoc.
Qed.

End PolygonCall.

Lemma request_only_with_valid_arguments_witness :
  nonEmptyString nat (Str "aapl") = true.
Proof.
  pose (tool := {| envVar := "POLYGON_API_KEY"; override := false;
                   apiKey := Some "K";
                   baseUrl := "https://api.polygon.io" |}).
  pose (args := {| action := Str "related_companies";
                   symbol := Str "aapl";
                   limit := @Missing nat; sort := @Missing nat |}).
  destruct (request_only_with_valid_arguments nat pretty "help"
              (fun _ => Throw (Error "offline")) tool args
              "https://api.polygon.io/v1/related-companies/AAPL?apiKey=K"
              [] eq_refl)
    as (_ & _ & [[_ Hsymbol] | [(Hpaged & _) | Hfixed]] & _).
  - exact Hsymbol.
  - discriminate Hpaged.
  - discriminate Hfixed.
Defined.

Lemma url_has_one_question_mark_witness :
  countChar "?"
    "https://api.polygon.io/v3/reference/tickers?market=stocks&active=true&order=asc&limit=10&sort=ticker&apiKey=K"
  = 1.
Proof.
  apply (url_has_one_question_mark nat pretty "help"
           (fun _ => Throw (Error "offline"))
           {| envVar := "POLYGON_API_KEY"; override := false;
              apiKey := Some "K"; baseUrl := "https://api.polygon.io" |}
           {| action := Str "list_tickers"; symbol := Missing;
              limit := Num 10; sort := Str "ticker" |});
    reflexivity.
Defined.

Lemma blank_symbol_is_requested_witness :
  fst (call nat pretty "help" (fun _ => Throw (Error "offline"))
         {| envVar := "POLYGON_API_KEY"; override := false;
            apiKey := Some "K"; baseUrl := "https://api.polygon.io" |}
         {| action := Str "prev_aggregate"; symbol := Str "  ";
            limit := Missing; sort := Missing |})
  = ["https://api.polygon.io/v2/aggs/ticker//prev?adjusted=true&apiKey=K"].
Proof.
  exact (blank_symbol_is_requested nat pretty "help"
           (fun _ => Throw (Error "offline"))
           {| envVar := "POLYGON_API_KEY"; override := false;
              apiKey := Some "K"; baseUrl := "https://api.polygon.io" |}
           {| action := Str "prev_aggregate"; symbol := Str "  ";
              limit := Missing; sort := Missing |}
           "  " eq_refl eq_refl ltac:(discriminate) eq_refl).
Defined.

(** ** More on the selector *)

Lemma string_app_inj (p a b : string) : p +:+ a = p +:+ b -> a = b.
Proof.
  induction p as [|c p IH]; [now rewrite !string_app_nil_l|].
  rewrite !string_app_cons. intros H. injection H as H. auto.
Qed.

(** X8. With an array as selection, the defaults effect does nothing at
    all when every default is already selected; when one is missing it
    commits the selection followed by the missing defaults and always
    saves it, whatever is stored. *)
Theorem defaultsEffect_saves_iff_missing
    (defaults values : list string) (st : State) :
  mcpValues st = Some values ->
  ((forall d, In d defaults -> In d values) ->
   defaultsEffect defaults st = Ok st)
  /\ (forall d, In d defaults -> ~ In d values ->
      exists st',
        defaultsEffect defaults st = Ok st'
        /\ st' <> st
        /\ saved st'
           = (LAST_MCP_ +:+ key st,
              values ++ List.filter
                          (fun server => negb (includes values server))
                          defaults)
               :: saved st
        /\ forall rawCurrentValue,
             storageCondition
               (JArray (values ++ List.filter
                                    (fun server =>
                                       negb (includes values server))
                                    defaults))
               rawCurrentValue = true).
Proof.
  intros Hv. split.
  - intros Hall. unfold defaultsEffect. rewrite Hv.
    now rewrite (filter_all_excluded values defaults Hall).
  - intros d Hd Hnot. unfold defaultsEffect. rewrite Hv.
    assert (Hmissing :
      In d (List.filter (fun server => negb (includes values server))
                        defaults)).
    { apply filter_excluded_In. auto. }
    destruct (List.filter _ defaults) as [|m missing];
      [contradiction|].
    cbn [length Nat.ltb Nat.leb].
    destruct (setMCPValues_saved (values ++ m :: missing) st)
      as (st' & Hrun & Hsaved & _).
    exists st'. split; [assumption|]. split; [|split; [assumption|]].
    + intros Heq. rewrite Heq in Hsaved.
      apply (f_equal (@length _)) in Hsaved. cbn [length] in Hsaved. lia.
    + intros rawCurrentValue.
      destruct values as [|v values]; apply storageCondition_non_empty.
Qed.

Lemma defaultsEffect_saves_iff_missing_witness :
  defaultsEffect ["time"]
    (mkState (Some "c1") None (Some ["web"; "time"]) ∅ ∅ [])
  = Ok (mkState (Some "c1") None (Some ["web"; "time"]) ∅ ∅ []).
Proof.
  apply (proj1 (defaultsEffect_saves_iff_missing ["time"] ["web"; "time"]
                  (mkState (Some "c1") None (Some ["web"; "time"]) ∅ ∅ [])
                  eq_refl)).
  intros d [<- | []]. right. left. reflexivity.
Defined.

Lemma In_after_defaults (values defaults : list string) (x : string) :
  In x (values ++ List.filter
                    (fun server => negb (includes values server)) defaults)
  <-> In x values \/ In x defaults.
Proof.
  rewrite in_app_iff, filter_excluded_In. split; [tauto|].
  intros [Hv | Hd]; [auto|].
  destruct (includes values x) eqn:Hin.
  - left. now apply includes_In.
  - right. split; [assumption|]. now apply includes_false.
Qed.

Lemma In_pruned (available values : list string) (x : string) :
  In x (match available with
        | [] => []
        | server :: servers =>
            List.filter (includes (server :: servers)) values
        end)
  <-> In x values /\ In x available.
Proof.
  destruct available as [|a available]; [cbn; tauto|].
  now rewrite filter_In, includes_In.
Qed.

(** X9. Once the defaults effect has run after the first availability
    resolution, as it does in the component after every commit, the
    selection is made of the servers selected before that are available
    and of all default servers, available or not; so it is whether or not
    the defaults effect had also run before the resolution. *)
Theorem selection_settles_after_resolution
    (defaults : list string) (mcpServerSet : option (list string))
    (values : list string) (st : State) :
  mcpValues st = Some values ->
  hasSetFetched st <> Some (key st) ->
  exists st1 st2,
    run [AvailabilityResolved true mcpServerSet;
         DefaultsChanged defaults] st = Ok st1
    /\ run [DefaultsChanged defaults;
            AvailabilityResolved true mcpServerSet;
            DefaultsChanged defaults] st = Ok st2
    /\ (forall x, In x (getSelected (key st) st1)
                  <-> (In x values /\ In x (default [] mcpServerSet))
                      \/ In x defaults)
    /\ (forall x, In x (getSelected (key st) st2)
                  <-> (In x values /\ In x (default [] mcpServerSet))
                      \/ In x defaults).
Proof.
  intros Hv Href.
  destruct (pruneEffect_first mcpServerSet values st Href Hv)
    as (sa & Hpa & Hca & _ & Hma).
  destruct (defaultsEffect_selected defaults _ sa Hma)
    as (st1 & Hd1 & Hc1 & _ & Hm1).
  destruct (defaultsEffect_selected defaults values st Hv)
    as (sb & Hdb & Hcb & Hrb & Hmb).
  assert (Hrefb : hasSetFetched sb <> Some (key sb)).
  { now rewrite Hrb, (key_eq _ _ Hcb). }
  destruct (pruneEffect_first mcpServerSet _ sb Hrefb Hmb)
    as (sc & Hpc & Hcc & _ & Hmc).
  destruct (defaultsEffect_selected defaults _ sc Hmc)
    as (st2 & Hd2 & Hc2 & _ & Hm2).
  exists st1, st2. cbn [run step]. rewrite Hpa, Hdb. cbn [bind].
  rewrite Hd1, Hpc. cbn [bind]. rewrite Hd2. cbn [bind].
  split; [reflexivity|]. split; [reflexivity|].
  assert (Hk1 : key st = key st1).
  { symmetry. rewrite (key_eq _ _ Hc1). now apply key_eq. }
  assert (Hk2 : key st = key st2).
  { symmetry. rewrite (key_eq _ _ Hc2), (key_eq _ _ Hcc).
    now apply key_eq. }
  split; intros x.
  - rewrite Hk1, getSelected_key, Hm1.
    change (default [] (Some ?l)) with l.
    rewrite In_after_defaults.
    pose proof (In_pruned (default [] mcpServerSet) values x) as Hpruned.
    split.
    + intros [Hp | Hd]; [left; apply Hpruned, Hp | right; exact Hd].
    + intros [Hp | Hd]; [left; apply Hpruned, Hp | right; exact Hd].
  - rewrite Hk2, getSelected_key, Hm2.
    change (default [] (Some ?l)) with l.
    rewrite In_after_defaults.
    pose proof (In_pruned (default [] mcpServerSet)
                  (values ++ List.filter
                               (fun server => negb (includes values server))
                               defaults) x) as Hpruned.
    pose proof (In_after_defaults values defaults x) as Hafter.
    split.
    + intros [Hp | Hd]; [|right; exact Hd].
      apply Hpruned in Hp as [Hin Havail].
      apply Hafter in Hin as [Hin | Hin]; [left; auto | right; exact Hin].
    + intros [[Hin Havail] | Hd]; [|right; exact Hd].
      left. apply Hpruned. split; [|exact Havail].
      apply Hafter. left. exact Hin.
Qed.

Lemma selection_settles_after_resolution_witness :
  exists st1,
    run [AvailabilityResolved true (Some ["web"]);
         DefaultsChanged ["time"]]
        (mkState (Some "c1") None (Some ["web"; "files"]) ∅ ∅ []) = Ok st1
    /\ In "time" (getSelected "c1" st1)
    /\ ~ In "files" (getSelected "c1" st1).
Proof.
  destruct (selection_settles_after_resolution ["time"] (Some ["web"])
              ["web"; "files"]
              (mkState (Some "c1") None (Some ["web"; "files"]) ∅ ∅ [])
              eq_refl ltac:(discriminate))
    as (st1 & _ & Hrun & _ & Hin & _).
  exists st1. split; [exact Hrun|]. split.
  - apply Hin. right. left. reflexivity.
  - intros Hfiles. apply Hin in Hfiles as [[_ Havail] | Hdef].
    + destruct Havail as [H | []]. discriminate H.
    + destruct Hdef as [H | []]. discriminate H.
Defined.

(** X10. [setSelectedValues] writes one thing only: the [mcp] field of
    the agent of the conversation shown.  The other fields of that agent,
    the agents of all other conversations, the hook's value, the ref and
    the storage stay as they are. *)
Theorem setSelectedValues_frame (values : jsval) (st st' : State) :
  setSelectedValues values st = Ok st' ->
  conversationId st' = conversationId st
  /\ hasSetFetched st' = hasSetFetched st
  /\ mcpValues st' = mcpValues st
  /\ localStorage st' = localStorage st
  /\ saved st' = saved st
  /\ (forall k, k <> key st ->
        ephemeralAgentByConvoId st' !! k = ephemeralAgentByConvoId st !! k)
  /\ ephemeralAgent st' ≫= execute_code = ephemeralAgent st ≫= execute_code.
Proof.
  unfold setSelectedValues.
  destruct values as [| |s|l]; cbn [truthy negb];
    try (intros H; injection H as <-; repeat split; reflexivity).
  - destruct (negb (negb (String.eqb s EmptyString)));
      intros H; injection H as <-; repeat split; reflexivity.
  - intros H. injection H as <-.
    repeat (split; [reflexivity|]). split.
    + intros k Hk. unfold setEphemeralAgent. cbn [ephemeralAgentByConvoId].
      now rewrite lookup_insert_ne.
    + unfold ephemeralAgent, setEphemeralAgent.
      cbn [ephemeralAgentByConvoId].
      change (key (mkState _ _ _ _ _ _)) with (key st).
      rewrite lookup_insert_eq. reflexivity.
Qed.

Lemma setSelectedValues_frame_witness :
  ephemeralAgent
    (setEphemeralAgent (withMcp ["web"])
       (mkState (Some "c1") None (Some [])
          {[ "c1" := {| mcp := None; execute_code := Some true |} ]} ∅ []))
    ≫= execute_code
  = Some true.
Proof.
  rewrite (proj2 (proj2 (proj2 (proj2 (proj2 (proj2
             (setSelectedValues_frame (JArray ["web"])
                (mkState (Some "c1") None (Some [])
                   {[ "c1" := {| mcp := None;
                                 execute_code := Some true |} ]} ∅ [])
                _ eq_refl))))))).
  reflexivity.
Defined.

Lemma setMCPValues_frame (value : list string) (st st' : State) (k : string) :
  setMCPValues value st = Ok st' ->
  k <> key st ->
  getSelected k st' = getSelected k st
  /\ localStorage st' !! (LAST_MCP_ +:+ k)
     = localStorage st !! (LAST_MCP_ +:+ k).
Proof.
  intros Hrun Hk.
  destruct (setMCPValues_Ok value st) as (s & Hs & Hc & _ & _).
  rewrite Hrun in Hs. injection Hs as <-.
  unfold getSelected. rewrite (key_eq _ _ Hc).
  rewrite !decide_False by assumption.
  unfold setMCPValues in Hrun. rewrite setSelectedValues_array in Hrun.
  injection Hrun as <-.
  assert (Hother : LAST_MCP_ +:+ key st <> LAST_MCP_ +:+ k).
  { intros Heq. apply string_app_inj in Heq. congruence. }
  cbn [setEphemeralAgent setItem set_mcpValues ephemeralAgentByConvoId
       localStorage];
    unfold key at 1; cbn [conversationId setItem set_mcpValues];
    rewrite ?lookup_insert_ne
      by first [exact Hother | exact (not_eq_sym Hk)];
    auto.
Qed.

(** X11. A selection, defaults or availability event concerns the
    conversation shown only: the selection of every other conversation
    and the snapshot stored for it stay as they are. *)
Theorem other_conversations_untouched
    (e : event) (st st' : State) (k : string) :
  isSwitch e = false ->
  step e st = Ok st' ->
  k <> key st ->
  getSelected k st' = getSelected k st
  /\ localStorage st' !! (LAST_MCP_ +:+ k)
     = localStorage st !! (LAST_MCP_ +:+ k).
Proof.
  intros Hsw Hstep Hk.
  destruct e as [v|defaults|fetched servers|id]; cbn [step] in Hstep;
    try discriminate.
  - exact (setMCPValues_frame v st st' k Hstep Hk).
  - unfold defaultsEffect in Hstep.
    destruct (mcpValues st) as [values|].
    + destruct (Nat.ltb 0 _).
      * exact (setMCPValues_frame _ st st' k Hstep Hk).
      * injection Hstep as <-. auto.
    + exact (setMCPValues_frame _ st st' k Hstep Hk).
  - unfold pruneEffect in Hstep.
    destruct (decide _); [injection Hstep as <-; auto|].
    destruct fetched; cbn [negb] in Hstep; [|injection Hstep as <-; auto].
    set (st0 := set_hasSetFetched (Some (key st)) st) in *.
    assert (Hframe : forall value, setMCPValues value st0 = Ok st' ->
      getSelected k st' = getSelected k st
      /\ localStorage st' !! (LAST_MCP_ +:+ k)
         = localStorage st !! (LAST_MCP_ +:+ k)).
    { intros value Hrun.
      exact (setMCPValues_frame value st0 st' k Hrun Hk). }
    destruct (Nat.ltb 0 _); [|exact (Hframe _ Hstep)].
    destruct (mcpValues st0); [exact (Hframe _ Hstep) | discriminate].
Qed.

Lemma other_conversations_untouched_witness :
  exists st',
    step (SetSelected ["web"])
      (mkState (Some "c1") None (Some [])
         {[ "c2" := {| mcp := Some ["time"]; execute_code := None |} ]}
         ∅ []) = Ok st'
    /\ getSelected "c2" st' = ["time"].
Proof.
  destruct (setMCPValues_Ok ["web"]
              (mkState (Some "c1") None (Some [])
                 {[ "c2" := {| mcp := Some ["time"];
                               execute_code := None |} ]} ∅ []))
    as (st' & Hstep & _).
  exists st'. split; [exact Hstep|].
  rewrite (proj1 (other_conversations_untouched
                    (SetSelected ["web"]) _ st' "c2" eq_refl Hstep
                    ltac:(discriminate))).
  reflexivity.
Defined.

(** X14. The pruning effect throws exactly on a first fetched resolution
    with a non-empty server set while the hook's value is missing: the
    filter is applied without the check that guards the defaults
    effect. *)
Theorem pruneEffect_throws_iff (isFetched : bool)
    (mcpServerSet : option (list string)) (st : State) :
  (exists e, pruneEffect isFetched mcpServerSet st = Throw e)
  <-> hasSetFetched st <> Some (key st)
      /\ isFetched = true
      /\ default [] mcpServerSet <> []
      /\ mcpValues st = None.
Proof.
  split.
  - intros [e He].
    destruct (decide (hasSetFetched st = Some (key st))) as [Href|Href];
      [now rewrite pruneEffect_done in He|].
    destruct isFetched; [|now rewrite pruneEffect_unfetched in He].
    destruct (mcpValues st) as [values|] eqn:Hv.
    + destruct (pruneEffect_first mcpServerSet values st Href Hv)
        as (st' & Hrun & _). congruence.
    + split; [assumption|]. split; [reflexivity|].
      split; [|reflexivity].
      intros Hempty. unfold pruneEffect in He.
      rewrite decide_False in He by assumption. cbn [negb] in He.
      rewrite Hempty in He. cbn [length Nat.ltb Nat.leb] in He.
      destruct (setMCPValues_Ok [] (set_hasSetFetched (Some (key st)) st))
        as (st' & Hrun & _). congruence.
  - intros (Href & -> & Hset & Hv). unfold pruneEffect.
    rewrite decide_False by assumption. cbn [negb].
    destruct (default [] mcpServerSet) as [|server servers];
      [contradiction|].
    cbn [length Nat.ltb Nat.leb mcpValues set_hasSetFetched].
    rewrite Hv. eauto.
Qed.

Lemma pruneEffect_throws_iff_witness :
  exists e,
    pruneEffect true (Some ["web"]) (mkState None None None ∅ ∅ [])
    = Throw e.
Proof.
  apply (proj2 (pruneEffect_throws_iff true (Some ["web"])
                  (mkState None None None ∅ ∅ []))).
  repeat split; discriminate.
Defined.

(** ** The selector and its dropdown, continued *)

Lemma filter_excluded_twice (ds names values : list string) :
  (forall d, In d ds -> In d names) ->
  List.filter (fun value => negb (includes ds value))
    (List.filter (fun value => negb (includes names value)) values)
  = List.filter (fun value => negb (includes names value)) values.
Proof.
  intros Hsub. induction values as [|v values IH]; [reflexivity|].
  cbn [List.filter]. destruct (includes names v) eqn:Hnames; cbn [negb].
  - exact IH.
  - cbn [List.filter]. assert (Hds : includes ds v = false).
    { apply includes_false. intros Hin. apply Hsub in Hin.
      apply includes_In in Hin. congruence. }
    rewrite Hds. cbn [negb]. now rewrite IH.
Qed.

Lemma defaults_in_filtering_names (servers : list MCPServer) (d : string) :
  In d (defaultMCPServers servers) ->
  In d (MultiSelect.serverNamesForFiltering servers).
Proof.
  rewrite serverNamesForFiltering_fallback.
  destruct (defaultMCPServers servers); [intros [] | auto].
Qed.

(** X12. When the selector's callback holds the current default list, the
    dropdown never shows its placeholder: whenever it is rendered, the
    values it shows are selected servers that are not filtered out, there
    is at least one, and the button reads that server's name or the
    localized count of the values shown. *)
Theorem dropdown_never_shows_placeholder
    (localize : Localize) (mcpServerSet : option (list string))
    (memoDefaults : list string) (data : option (list MCPServerData))
    (st : State) (props : MultiSelect.Props State)
    (view : MultiSelect.View State) :
  MCPSelect localize mcpServerSet memoDefaults
            (defaultMCPServers (useGetMCP data)) st = Some props ->
  MultiSelect.MultiSelect props data = Some view ->
  (forall v, In v (MultiSelect.value view)
             <-> In v (default [] (mcpValues st))
                 /\ ~ In v (MultiSelect.serverNamesForFiltering
                              (useGetMCP data)))
  /\ ((exists v, MultiSelect.value view = [v]
                 /\ MultiSelect.buttonText view = v)
      \/ (2 <= length (MultiSelect.value view)
          /\ MultiSelect.buttonText view
             = localize "com_ui_x_selected"
                 (Some (length (MultiSelect.value view))))).
Proof.
  unfold MCPSelect.
  destruct mcpServerSet as [servers|]; [|discriminate].
  destruct (Nat.eqb (length servers) 0); [discriminate|].
  intros Hprops. injection Hprops as <-.
  unfold MultiSelect.MultiSelect.
  cbn [MultiSelect.selectedValues MultiSelect.renderSelectedValues
       MultiSelect.placeholder MultiSelect.label MultiSelect.items
       default from_option id].
  set (names := MultiSelect.serverNamesForFiltering (useGetMCP data)).
  set (shown := List.filter (fun value => negb (includes names value))
                            (default [] (mcpValues st))).
  destruct (Nat.eqb (length shown) 0) eqn:Hlen; [discriminate|].
  intros Hview. injection Hview as <-.
  cbn [MultiSelect.value MultiSelect.buttonText].
  split.
  - intros v. subst shown. apply filter_excluded_In.
  - assert (Hsame :
      List.filter
        (fun value =>
           negb (includes (defaultMCPServers (useGetMCP data)) value))
        shown = shown).
    { apply filter_excluded_twice, defaults_in_filtering_names. }
    unfold renderSelectedValues. rewrite Hsame, Hlen.
    destruct shown as [|v [|w rest]]; [discriminate | left | right].
    + exists v. auto.
    + split; [cbn [length]; lia | reflexivity].
Qed.

Lemma dropdown_never_shows_placeholder_witness :
  exists view,
    MultiSelect.MultiSelect
      {| MultiSelect.items := ["web"];
         MultiSelect.label := None;
         MultiSelect.placeholder := Some "MCP Servers";
         MultiSelect.onSelectedValuesChange := None;
         MultiSelect.renderSelectedValues :=
           Some (renderSelectedValues localize_en ["time"]);
         MultiSelect.selectedValues := Some ["time"; "web"];
         MultiSelect.setSelectedValues := setMCPValues |}
      None = Some view
    /\ MultiSelect.value view = ["web"]
    /\ (exists v, MultiSelect.value view = [v]
                  /\ MultiSelect.buttonText view = v).
Proof.
  eexists. split; [reflexivity|]. split; [reflexivity|].
  destruct (proj2 (dropdown_never_shows_placeholder
                     localize_en (Some ["time"; "web"]) ["time"] None
                     (mkState None None (Some ["time"; "web"]) ∅ ∅ [])
                     _ _ eq_refl eq_refl))
    as [Hone | [Hmany _]].
  - exact Hone.
  - cbn in Hmany. lia.
Defined.

(** ** From the server's configuration to the client's defaults *)

Lemma filter_isDefault_names (defaults names : list string) :
  defaultMCPServers
    (DataProvider.select
       (Transport.received
          (map (fun server =>
                  {| Server.name := server;
                     Server.isDefault := includes defaults server |})
               names)))
  = List.filter (includes defaults) names.
Proof.
  unfold defaultMCPServers, DataProvider.select, Transport.received.
  induction names as [|n names IH]; [reflexivity|].
  cbn [map List.filter Server.name Server.isDefault data_name
       data_isDefault default from_option id DataProvider.isDefault].
  destruct (includes defaults n); cbn [map DataProvider.name];
    now rewrite IH.
Qed.

(** X13. When the configuration has MCP servers and the manager answers,
    the listing has one entry per server the manager reports, in its
    order, and the default list the client derives from the answer is
    made of those reported servers that the configuration names as
    defaults: a configured default that is not reported is no default on
    the client. *)
Theorem client_defaults_from_configuration
    (env : Env) (cfg : CustomConfig) (configured : list string)
    (manager : MCPManager) (names : list string) :
  getCustomConfig env = Ok (Some cfg) ->
  Server.mcpServers cfg = Some configured ->
  getMCPManager env = Ok manager ->
  getServerNames manager = Ok names ->
  exists options,
    getMCPs env = Ok options
    /\ map Server.name options = names
    /\ DataProvider.defaultMCPServers (useGetMCP (Some (Transport.received options)))
       = List.filter (includes (defaultsOf cfg)) names
    /\ forall d,
         In d (DataProvider.defaultMCPServers
                 (useGetMCP (Some (Transport.received options))))
         <-> In d names /\ In d (defaultsOf cfg).
Proof.
  intros Hcfg Hservers Hmanager Hnames.
  unfold getMCPs, getMCPs_body.
  rewrite Hcfg. cbn [bind]. rewrite Hservers, Hmanager. cbn [bind].
  rewrite Hnames. cbn [bind try_catch].
  eexists. split; [reflexivity|]. split; [|split].
  - rewrite map_map. cbn [Server.name]. apply map_id.
  - cbn [useGetMCP]. apply filter_isDefault_names.
  - intros d. cbn [useGetMCP]. rewrite filter_isDefault_names.
    rewrite filter_In, includes_In. reflexivity.
Qed.

Lemma client_defaults_from_configuration_witness :
  exists options,
    getMCPs
      {| getCustomConfig :=
           Ok (Some {| Server.mcpServers := Some ["time"; "web"; "files"];
                       Server.mcpServerConfig :=
                         Some {| Server.defaultMCPServers :=
                                   Some ["time"; "files"] |} |});
         getMCPManager :=
           Ok {| getServerNames := Ok ["web"; "time"] |} |}
    = Ok options
    /\ DataProvider.defaultMCPServers (useGetMCP (Some (Transport.received options)))
       = ["time"].
Proof.
  destruct (client_defaults_from_configuration
              {| getCustomConfig :=
                   Ok (Some {| Server.mcpServers := Some ["time"; "web"; "files"];
                               Server.mcpServerConfig :=
                                 Some {| Server.defaultMCPServers :=
                                           Some ["time"; "files"] |} |});
                 getMCPManager :=
                   Ok {| getServerNames := Ok ["web"; "time"] |} |}
              _ _ _ _ eq_refl eq_refl eq_refl eq_refl)
    as (options & Hrun & _ & Hdefaults & _).
  exists options. split; [exact Hrun | exact Hdefaults].
Defined.

(** X15. Whatever renderer it is given, the dropdown calls it with at
    least one value, so with the default renderer the placeholder is never
    shown: the button reads the single value, or the number of values
    followed by [items selected].  The options are the items as given. *)
Theorem MultiSelect_renders_some_value
    {S : Type} (props : MultiSelect.Props S)
    (data : option (list MCPServerData)) (view : MultiSelect.View S) :
  MultiSelect.MultiSelect props data = Some view ->
  MultiSelect.value view <> []
  /\ MultiSelect.options view = MultiSelect.items props
  /\ MultiSelect.buttonText view
     = default MultiSelect.defaultRender
         (MultiSelect.renderSelectedValues props)
         (MultiSelect.value view)
         (Some (default "Select..." (MultiSelect.placeholder props)))
  /\ (MultiSelect.renderSelectedValues props = None ->
      (exists v, MultiSelect.value view = [v]
                 /\ MultiSelect.buttonText view = v)
      \/ (2 <= length (MultiSelect.value view)
          /\ MultiSelect.buttonText view
             = pretty (length (MultiSelect.value view))
                 +:+ " items selected")).
Proof.
  unfold MultiSelect.MultiSelect.
  destruct (List.filter _ (default [] (MultiSelect.selectedValues props)))
    as [|v shown] eqn:Hshown; cbn [length Nat.eqb]; [discriminate|].
  intros Hview. injection Hview as <-.
  cbn [MultiSelect.value MultiSelect.options MultiSelect.buttonText].
  split; [discriminate|]. split; [reflexivity|]. split; [reflexivity|].
  intros ->. cbn [default from_option id MultiSelect.defaultRender].
  destruct shown as [|w rest].
  - left. eauto.
  - right. split; [cbn [length]; lia | reflexivity].
Qed.

Lemma MultiSelect_renders_some_value_witness :
  exists view,
    MultiSelect.MultiSelect
      {| MultiSelect.items := ["web"; "files"];
         MultiSelect.label := None;
         MultiSelect.placeholder := None;
         MultiSelect.onSelectedValuesChange := None;
         MultiSelect.renderSelectedValues := None;
         MultiSelect.selectedValues := Some ["time"; "web"; "files"];
         MultiSelect.setSelectedValues :=
           fun (values : list string) (_ : list string) => Ok values |}
      None = Some view
    /\ MultiSelect.buttonText view = "2 items selected".
Proof.
  eexists. split; [reflexivity|].
  destruct (proj2 (proj2 (proj2 (MultiSelect_renders_some_value
                     {| MultiSelect.items := ["web"; "files"];
                        MultiSelect.label := None;
                        MultiSelect.placeholder := None;
                        MultiSelect.onSelectedValuesChange := None;
                        MultiSelect.renderSelectedValues := None;
                        MultiSelect.selectedValues :=
                          Some ["time"; "web"; "files"];
                        MultiSelect.setSelectedValues :=
                          fun (values : list string) (_ : list string) =>
                            Ok values |}
                     None _ eq_refl))) eq_refl)
    as [(v & Hv & _) | [_ Htext]].
  - discriminate Hv.
  - exact Htext.
Defined.

(** X16. A selection made of default servers only, such as the empty
    selection of a fresh conversation, still is one after the defaults
    effect, and the dropdown is then not rendered, whatever servers are
    available and whatever items the selector offers. *)
Theorem dropdown_hidden_after_defaults
    (localize : Localize) (mcpServerSet : option (list string))
    (memoDefaults callbackDefaults : list string)
    (data : option (list MCPServerData))
    (values : list string) (st : State) :
  mcpValues st = Some values ->
  (forall v, In v values -> In v (defaultMCPServers (useGetMCP data))) ->
  exists st',
    defaultsEffect (defaultMCPServers (useGetMCP data)) st = Ok st'
    /\ forall props,
         MCPSelect localize mcpServerSet memoDefaults callbackDefaults st'
         = Some props ->
         MultiSelect.MultiSelect props data = None.
Proof.
  intros Hv Hall.
  destruct (defaultsEffect_selected
              (defaultMCPServers (useGetMCP data)) values st Hv)
    as (st' & Hrun & _ & _ & Hm).
  exists st'. split; [assumption|].
  intros props. unfold MCPSelect.
  destruct mcpServerSet as [servers|]; [|discriminate].
  destruct (Nat.eqb (length servers) 0); [discriminate|].
  intros Hprops. injection Hprops as <-.
  unfold MultiSelect.MultiSelect.
  cbn [MultiSelect.selectedValues default from_option id].
  rewrite Hm. cbn [default from_option id].
  rewrite filter_all_excluded; [reflexivity|].
  intros v Hin. apply defaults_in_filtering_names.
  apply in_app_or in Hin as [Hin | Hin]; [auto|].
  now apply filter_In in Hin.
Qed.

Lemma dropdown_hidden_after_defaults_witness :
  exists st',
    defaultsEffect ["time"] (emptyState (Some "c1")) = Ok st'
    /\ forall props,
         MCPSelect localize_en (Some ["time"; "web"]) ["time"] ["time"] st'
         = Some props ->
         MultiSelect.MultiSelect props None = None.
Proof.
  apply (dropdown_hidden_after_defaults localize_en
           (Some ["time"; "web"]) ["time"] ["time"] None []
           (emptyState (Some "c1")) eq_refl).
  intros v [].
Defined.
